(** * loco_hd: the CASP14 predictor benchmark (python_codes/casp14_predictor_test.py)

    A shallow embedding of the score reconciliation and aggregation
    script: the lDDT table reader ([lddt_from_text], [read_lddt_values]),
    the anchor selection, the per-prediction loop of [main] with its
    accumulators and joint histogram, and the final statistics report.

    Conventions of the embedding.
    - A Python exception is a value of [exn]; a computation that may raise
      returns a [result]. Loops that mutate the accumulators thread a
      [state] and report the exception that stopped them, if any.
    - A Python [float] is a [pyfloat]: an exact rational or NaN. Rounding
      and infinities are outside the model.
    - A [dict] is a [gmap]; a later insertion of a key replaces the earlier
      one, as in Python.
    - Files written and lines printed are recorded, in order, in the
      [output] field of the state. *)

From Stdlib Require Import Ascii QArith Qround.
From stdpp Require Import gmap strings list fin_maps pretty sorting.

Open Scope string_scope.
Open Scope list_scope.
Open Scope nat_scope.
Open Scope stdpp_scope.

(** ** Exceptions and results *)

Inductive exn : Type :=
| StopIteration
| IndexError
| ValueError
| KeyError (key : string)
| FileNotFoundError.

Inductive result (A : Type) : Type :=
| Ok (a : A)
| Raise (e : exn).
Arguments Ok {A} a.
Arguments Raise {A} e.

(** Sequencing: the first exception raised ends the computation. The
    notation [x ← r; k] is stdpp's. *)
Global Instance result_ret : MRet result := λ A a, Ok a.
Global Instance result_bind : MBind result := λ A B k r,
  match r with
  | Ok a => k a
  | Raise e => Raise e
  end.

(** [seq[i]] on a list: [IndexError] out of range. *)
Definition getitem {A : Type} (l : list A) (i : nat) : result A :=
  match l !! i with
  | Some a => Ok a
  | None => Raise IndexError
  end.

(** [d[k]] on a dict: [KeyError k] when the key is absent. *)
Definition dict_get {V : Type} (d : gmap string V) (k : string) : result V :=
  match d !! k with
  | Some v => Ok v
  | None => Raise (KeyError k)
  end.

(** ** Floats *)

Inductive pyfloat : Type :=
| NaN
| Fin (q : Q).

(** IEEE [==]: NaN differs from everything, itself included. *)
Definition float_eqb (x y : pyfloat) : bool :=
  match x, y with
  | Fin p, Fin q => Qeq_bool p q
  | _, _ => false
  end.

(** ** String operations of the Python standard library *)

Definition tab : string := String (ascii_of_nat 9) EmptyString.
Definition newline : string := String (ascii_of_nat 10) EmptyString.

(** [s.startswith(p)] *)
Definition startswith (s p : string) : bool := String.prefix p s.

(** [sub in s] *)
Fixpoint contains (sub s : string) : bool :=
  String.prefix sub s ||
  match s with
  | EmptyString => false
  | String _ s' => contains sub s'
  end.

(** [s.split(sep)] for a one-character separator: always at least one
    field, the empty string splits into one empty field. *)
Fixpoint split (sep : ascii) (s : string) : list string :=
  match s with
  | EmptyString => [EmptyString]
  | String c s' =>
      if Ascii.eqb c sep then EmptyString :: split sep s'
      else match split sep s' with
           | [] => [String c EmptyString]
           | w :: ws => String c w :: ws
           end
  end.

(** [s.replace(old, new)] for a non-empty [old]: occurrences are replaced
    left to right, without overlap. [skip] counts the characters of an
    occurrence that remain to be dropped. *)
Fixpoint replace_from (old new : string) (skip : nat) (s : string) : string :=
  match s with
  | EmptyString => EmptyString
  | String c s' =>
      match skip with
      | S k => replace_from old new k s'
      | O =>
          if String.prefix old s
          then new +:+ replace_from old new (String.length old - 1) s'
          else String c (replace_from old new 0 s')
      end
  end.

Definition replace (old new s : string) : string := replace_from old new 0 s.

(** ** lddt_from_text *)

Definition header_text : string :=
  "Chain" +:+ tab +:+ "ResName" +:+ tab +:+ "ResNum" +:+ tab +:+
  "Asses." +:+ tab +:+ "Q.Prob." +:+ tab +:+ "Score".

(** [next(idx for idx in range(len(text)) if text[idx].startswith(header_text))] *)
Fixpoint first_header_from (idx : nat) (text : list string) : result nat :=
  match text with
  | [] => Raise StopIteration
  | line :: rest =>
      if startswith line header_text then Ok idx
      else first_header_from (S idx) rest
  end.

(** The key expression of the comprehension, on the three fields. *)
Definition residue_key (chain resnum resname : string) : string :=
  chain +:+ "/" +:+ resnum +:+ "-" +:+ resname.

Section ScoreExtractor.

(** Python's [float(str)]: [None] stands for its [ValueError]. *)
Variable float : string → option pyfloat.

(** The dict comprehension of [lddt_from_text], one row at a time:
    the filter [len(line) != 1 and line[5] != "-"] is evaluated first,
    then the key, then the value. *)
Fixpoint comprehension (rows : list (list string)) (acc : gmap string pyfloat)
  : result (gmap string pyfloat) :=
  match rows with
  | [] => Ok acc
  | line :: rest =>
      if length line =? 1 then comprehension rest acc
      else
        score ← getitem line 5;
        if String.eqb score "-" then comprehension rest acc
        else
          chain ← getitem line 0;
          resnum ← getitem line 2;
          resname ← getitem line 1;
          match float score with
          | Some v => comprehension rest (<[residue_key chain resnum resname := v]> acc)
          | None => Raise ValueError
          end
  end.

(** The rows of a text: the lines after the header line, split on tabs. *)
Definition rows_of (text : string) : result (list (list string)) :=
  let text := split (ascii_of_nat 10) text in
  start_idx ← first_header_from 0 text;
  let text := drop (start_idx + 1) text in
  Ok (map (split (ascii_of_nat 9)) text).

Definition lddt_from_text (text : string) : result (gmap string pyfloat) :=
  rows ← rows_of text;
  comprehension rows ∅.

End ScoreExtractor.

(** A reader of plain decimal literals (optional sign, digits, at most one
    point), the shape of the Score column. It instantiates [float] in the
    closed examples; Python's [float] accepts more (exponents, inf, nan,
    surrounding blanks), which no example uses. *)
Definition digit_of (c : ascii) : option Z :=
  let n := nat_of_ascii c in
  if (48 <=? n) && (n <=? 57) then Some (Z.of_nat (n - 48)) else None.

Fixpoint decimal_digits (s : string) (num : Z) (den : positive) (frac any : bool)
  : option Q :=
  match s with
  | EmptyString => if any then Some (num # den) else None
  | String c s' =>
      if Ascii.eqb c "."%char then
        if frac then None else decimal_digits s' num den true any
      else
        match digit_of c with
        | Some d =>
            decimal_digits s' (10 * num + d)%Z
              (if frac then (10 * den)%positive else den) frac true
        | None => None
        end
  end.

Definition float_of_decimal (s : string) : option pyfloat :=
  match s with
  | String "-"%char s' => (λ q, Fin (- q)%Q) <$> decimal_digits s' 0 1 false false
  | String "+"%char s' => Fin <$> decimal_digits s' 0 1 false false
  | _ => Fin <$> decimal_digits s 0 1 false false
  end.

(** ** The numpy and scipy operations the script calls

    These are library functions; each definition follows the library's
    documented behaviour on the exact-rational model of floats. *)

(** The finite values of an array, or [None] when it holds a NaN. *)
Fixpoint finite_values (a : list pyfloat) : option (list Q) :=
  match a with
  | [] => Some []
  | NaN :: _ => None
  | Fin q :: rest => cons q <$> finite_values rest
  end.

Definition Qsum (qs : list Q) : Q := foldr Qplus 0%Q qs.

Definition Qmean (qs : list Q) : Q :=
  (Qsum qs / inject_Z (Z.of_nat (length qs)))%Q.

(** Insertion into an ascending list, and the sort [np.median] relies on. *)
Fixpoint Qinsert (x : Q) (qs : list Q) : list Q :=
  match qs with
  | [] => [x]
  | y :: rest => if Qle_bool x y then x :: qs else y :: Qinsert x rest
  end.

Definition Qsort (qs : list Q) : list Q := foldr Qinsert [] qs.

Definition Qmin_list (q : Q) (qs : list Q) : Q :=
  foldl (λ m x, if Qle_bool x m then x else m) q qs.

Definition Qmax_list (q : Q) (qs : list Q) : Q :=
  foldl (λ m x, if Qle_bool m x then x else m) q qs.

(** [np.mean]: NaN on an empty array (with a warning) and on an array
    holding a NaN. *)
Definition np_mean (a : list pyfloat) : pyfloat :=
  match finite_values a with
  | None | Some [] => NaN
  | Some qs => Fin (Qmean qs)
  end.

(** [np.median]: the middle element of the sorted array, or the mean of the
    two middle elements; NaN on an empty array and on an array holding a
    NaN. *)
Definition np_median (a : list pyfloat) : pyfloat :=
  match finite_values a with
  | None | Some [] => NaN
  | Some qs =>
      let sorted := Qsort qs in
      let n := length sorted in
      if Nat.even n
      then Fin ((nth (n / 2 - 1) sorted 0 + nth (n / 2) sorted 0) / 2)%Q
      else Fin (nth (n / 2) sorted 0%Q)
  end.

(** [np.min] and [np.max]: [ValueError] on an empty array (the reduction
    has no identity); a NaN in the array is propagated. *)
Definition np_min (a : list pyfloat) : result pyfloat :=
  match a with
  | [] => Raise ValueError
  | _ :: _ =>
      match finite_values a with
      | Some (q :: qs) => Ok (Fin (Qmin_list q qs))
      | _ => Ok NaN
      end
  end.

Definition np_max (a : list pyfloat) : result pyfloat :=
  match a with
  | [] => Raise ValueError
  | _ :: _ =>
      match finite_values a with
      | Some (q :: qs) => Ok (Fin (Qmax_list q qs))
      | _ => Ok NaN
      end
  end.

(** The bin edges [np.linspace(lo, hi, bins + 1)]: edge number [k] lies
    [k] steps of width [(hi - lo) / bins] above [lo]. *)
Definition edge (lo hi : Q) (bins k : nat) : Q :=
  (lo + inject_Z (Z.of_nat k) * (hi - lo) / inject_Z (Z.of_nat bins))%Q.

Definition bin_edges (lo hi : Q) (bins : nat) : list Q :=
  map (edge lo hi bins) (seq 0 (S bins)).

(** [np.searchsorted(edges, v, side='right')] on ascending edges: the
    number of edges that are at most [v]. *)
Definition searchsorted_right (edges : list Q) (v : Q) : nat :=
  length (filter (λ e, Qle_bool e v = true) edges).

(** The bin number [np.histogramdd] gives a sample along one axis:
    [searchsorted] on the right, then one bin to the left for a sample on
    the rightmost edge. Numbers 0 and [length edges] are the two outlier
    bins; a NaN sorts after every edge. *)
Definition bin_number (edges : list Q) (v : pyfloat) : nat :=
  match v with
  | NaN => length edges
  | Fin q =>
      let n := searchsorted_right edges q in
      if Qeq_bool q (List.last edges 0%Q) then n - 1 else n
  end.

Abbreviation histogram := (list (list nat)).

(** Occurrences of a pair of bin numbers among those of the samples. *)
Definition count_bin (Ncount : list (nat * nat)) (i j : nat) : nat :=
  length (filter (λ p, p = (i, j)) Ncount).

(** The counts of the core: entry [(i, j)] counts the samples of bin
    numbers [(i + 1, j + 1)]; the outlier bins (numbers 0 and [bins + 1]
    along either axis) are cut off. *)
Definition core_counts (Ncount : list (nat * nat)) (bins : nat) : histogram :=
  map (λ i, map (λ j, count_bin Ncount (i + 1) (j + 1)) (seq 0 bins)) (seq 0 bins).

(** [np.histogram2d(x, y, bins=bins, range=range)], its first component.
    [ValueError] when the two arrays differ in length. *)
Definition histogram2d (x y : list pyfloat) (bins : nat) (range : (Q * Q) * (Q * Q))
  : result histogram :=
  if length x =? length y then
    let xedges := bin_edges range.1.1 range.1.2 bins in
    let yedges := bin_edges range.2.1 range.2.2 bins in
    let Ncount := zip (map (bin_number xedges) x) (map (bin_number yedges) y) in
    Ok (core_counts Ncount bins)
  else Raise ValueError.

(** [hist += new_hist], element by element. *)
Definition hist_add (hist new_hist : histogram) : histogram :=
  zip_with (zip_with Nat.add) hist new_hist.

(** [hist[i, j]] *)
Definition hist_at (hist : histogram) (i j : nat) : nat :=
  default 0 (hist !! i ≫= (.!! j)).

(** [hist.sum()] *)
Definition hist_total (hist : histogram) : nat :=
  sum_list (sum_list <$> hist).

(** [(a[0] == a).all()] for a non-empty array *)
Definition is_constant (a : list pyfloat) : bool :=
  match a with
  | [] => true
  | x :: _ => forallb (float_eqb x) a
  end.

Section Scipy.

(** The correlation of the ranks of two finite, non-constant arrays of
    equal length at least 2: the regular case of [spearmanr]. *)
Variable rank_correlation : list Q → list Q → Q.

(** [scipy.stats.spearmanr(a, b).correlation]: [ValueError] when the
    arrays differ in length; NaN for fewer than two observations, for a
    constant input and for an input holding a NaN. *)
Definition spearmanr (a b : list pyfloat) : result pyfloat :=
  if negb (length a =? length b)%nat then Raise ValueError
  else if (length a <=? 1)%nat then Ok NaN
  else if is_constant a || is_constant b then Ok NaN
  else
    match finite_values a, finite_values b with
    | Some qa, Some qb => Ok (Fin (rank_correlation qa qb))
    | _, _ => Ok NaN
    end.

End Scipy.

Section Std.

Variable sqrt : Q → Q.

(** [np.std]: the square root of the mean squared deviation from the
    mean; NaN as for [np.mean]. *)
Definition np_std (a : list pyfloat) : pyfloat :=
  match finite_values a with
  | None | Some [] => NaN
  | Some qs =>
      let m := Qmean qs in
      Fin (sqrt (Qmean (map (λ x, (x - m) * (x - m))%Q qs)))
  end.

End Std.

(** ** Primitive atoms *)

(** Modelled from the spec: the classes [PrimitiveAtomTemplate] (module
    atom_converter_utils) and [PrimitiveAtom] (module loco_hd) are not
    among the sources. Their fields are the ones [prat_to_pra] and [main]
    read: the source residue is a full residue identifier
    [(structure, model, chain, (hetero flag, number, insertion code))], of
    which the chain and the residue number enter the key. *)
Record AtomSource : Type := {
  source_residue : string * Z * string * (string * Z * string);
  source_residue_name : string }.

Record PrimitiveAtomTemplate : Type := {
  primitive_type : string;
  atom_source : AtomSource;
  coordinates : Q * Q * Q }.

Record PrimitiveAtom : Type := {
  pra_primitive_type : string;
  id : string;
  pra_coordinates : Q * Q * Q }.

Definition prat_to_pra (prat : PrimitiveAtomTemplate) : PrimitiveAtom :=
  let resi_id := source_residue (atom_source prat) in
  let resname := source_residue_name (atom_source prat) in
  let source := resi_id.1.2 +:+ "/" +:+ pretty resi_id.2.1.2 +:+ "-" +:+ resname in
  {| pra_primitive_type := primitive_type prat;
     id := source;
     pra_coordinates := coordinates prat |}.

(** ** The archive reader *)

Definition PREDICTOR_KEY : string := "TS480".

(** A tar archive as the list of its members, each a name and the UTF-8
    text of the file. *)
Record TarInfo : Type := {
  name : string;
  content : string }.

Section Reader.

Variable float : string → option pyfloat.

(** The archives under [LDDT_TARS_PATH], by structure key: the key [k]
    is bound when the file [{k}.tgz] exists. *)
Variable lddt_tars : gmap string (list TarInfo).

(** The loop of [read_lddt_values] over the selected members. *)
Fixpoint read_members (tf_members : list TarInfo)
    (lddt_dict : gmap string (gmap string pyfloat))
  : result (gmap string (gmap string pyfloat)) :=
  match tf_members with
  | [] => Ok lddt_dict
  | tf_member :: rest =>
      content ← lddt_from_text float (content tf_member);
      part ← getitem (split "/" (name tf_member)) 2;
      let member_key := replace ".lddt" "" part in
      read_members rest (<[member_key := content]> lddt_dict)
  end.

Definition read_lddt_values (structure_key : string)
  : result (gmap string (gmap string pyfloat)) :=
  match lddt_tars !! structure_key with
  | None => Raise FileNotFoundError
  | Some tf_members =>
      let tf_members :=
        filter (λ m, contains (structure_key +:+ PREDICTOR_KEY +:+ "_") (name m) = true)
               tf_members in
      read_members tf_members ∅
  end.

End Reader.

(** ** The state of [main] *)

(** What the script writes: the per-prediction scatter plot, the image of
    the joint histogram, the progress line, and the statistics file. *)
Inductive event : Type :=
| SavePlot (key : string) (alpha : pyfloat)
| SaveHistogram (hist : histogram)
| PrintDone (key : string)
| WriteStatistics (lines : list (string * pyfloat)).

Record state : Type := State {
  spr_values : list pyfloat;
  median_lddts : list pyfloat;
  median_lchds : list pyfloat;
  hist : histogram;
  output : list event }.

(** A statement of [main]: it updates the state and either completes with
    a value or raises. The state it leaves behind is the one at the moment
    of the exception. *)
Definition run (A : Type) : Type := state → state * result A.

Global Instance run_ret : MRet run := λ A a st, (st, Ok a).
Global Instance run_bind : MBind run := λ A B k m st,
  match m st with
  | (st', Ok a) => k a st'
  | (st', Raise e) => (st', Raise e)
  end.

Definition lift {A : Type} (r : result A) : run A := λ st, (st, r).

Definition get : run state := λ st, (st, Ok st).

Definition modify (f : state → state) : run unit := λ st, (f st, Ok tt).

Definition emit (ev : event) : run unit :=
  modify (λ st, State (spr_values st) (median_lddts st) (median_lchds st) (hist st)
                      (output st ++ [ev])).

(** [for x in xs: body(x)] *)
Fixpoint for_each {A : Type} (body : A → run unit) (xs : list A) : run unit :=
  match xs with
  | [] => mret tt
  | x :: rest => body x ;; for_each body rest
  end.

Definition enumerate {A : Type} (xs : list A) : list (nat * A) :=
  zip (seq 0 (length xs)) xs.

(** ** Arithmetic of [get_plot_alpha] *)

Definition float_op (op : Q → Q → Q) (x y : pyfloat) : pyfloat :=
  match x, y with
  | Fin p, Fin q => Fin (op p q)
  | _, _ => NaN
  end.

Definition float_ltb (x y : pyfloat) : bool :=
  match x, y with
  | Fin p, Fin q => negb (Qle_bool q p)
  | _, _ => false
  end.

Definition get_plot_alpha (lchd_scores lddt_scores : list pyfloat) : result pyfloat :=
  lchd_max ← np_max lchd_scores;
  lchd_min ← np_min lchd_scores;
  let area_per_tick := float_op Qminus lchd_max lchd_min in
  lddt_max ← np_max lddt_scores;
  lddt_min ← np_min lddt_scores;
  let area_per_tick := float_op Qmult area_per_tick (float_op Qminus lddt_max lddt_min) in
  let area_per_tick :=
    float_op Qdiv area_per_tick (Fin (inject_Z (Z.of_nat (length lddt_scores)))) in
  let area_per_tick := float_op Qmult area_per_tick (Fin 1000) in
  Ok (if float_ltb area_per_tick (Fin 1) then area_per_tick else Fin 1).

(** [create_plot]: the picture is reduced to its file name and to the
    transparency, the one value that can make the call raise. *)
Definition create_plot (key : string) (lchd_scores lddt_scores : list pyfloat)
    (spr : pyfloat) : run unit :=
  alpha ← lift (get_plot_alpha lchd_scores lddt_scores);
  emit (SavePlot key alpha).

(** ** main *)

Definition hist_range : (Q * Q) * (Q * Q) := ((0, 1 # 2), (0, 1))%Q.
Definition hist_bins : nat := 100.

(** [[(idx, idx) for idx, prat in enumerate(true_pra_templates)
      if prat.primitive_type == "Cent"]] *)
Definition anchors_of (true_pra_templates : list PrimitiveAtomTemplate)
  : list (nat * nat) :=
  map (λ p, (p.1, p.1))
      (filter (λ p, primitive_type p.2 = "Cent") (enumerate true_pra_templates)).

(** [f"{structure_key}{PREDICTOR_KEY}_{pred_idx + 1}"] *)
Definition key1 (structure_key : string) (pred_idx : nat) : string :=
  structure_key +:+ PREDICTOR_KEY +:+ "_" +:+ pretty (pred_idx + 1).

(** The loop collecting the lDDT scores of one prediction (lines 155-159). *)
Fixpoint collect_lddt_scores (lddt_dict : gmap string (gmap string pyfloat))
    (key1 : string) (true_prim_atoms : list PrimitiveAtom)
    (anchors : list (nat * nat)) : result (list pyfloat) :=
  match anchors with
  | [] => Ok []
  | (anchor, _) :: rest =>
      pra ← getitem true_prim_atoms anchor;
      let key2 := id pra in
      scores ← dict_get lddt_dict key1;
      score ← dict_get scores key2;
      lddt_scores ← collect_lddt_scores lddt_dict key1 true_prim_atoms rest;
      Ok (score :: lddt_scores)
  end.

(** The five lines of the report on one accumulator. *)
Definition statistics_lines (sqrt : Q → Q) (what : string) (values : list pyfloat)
  : result (list (string * pyfloat)) :=
  let mean := np_mean values in
  let median := np_median values in
  let std := np_std sqrt values in
  min ← np_min values;
  max ← np_max values;
  Ok [("Mean " +:+ what, mean); ("Median " +:+ what, median);
      ("Std " +:+ what, std); ("Min " +:+ what, min); ("Max " +:+ what, max)].

Section Main.

(** The collaborators of the script: the parsed structures with the
    primitive assigner, the LoCoHD scorer, [float], the regular case of
    the rank correlation, the square root, and the archives on disk. *)
Variable Structure : Type.
Variable assign_primitive_structure : Structure → list PrimitiveAtomTemplate.
Variable from_primitives :
  list PrimitiveAtom → list PrimitiveAtom → list (nat * nat) → bool → Q → list pyfloat.
Variable float : string → option pyfloat.
Variable rank_correlation : list Q → list Q → Q.
Variable sqrt : Q → Q.
Variable lddt_tars : gmap string (list TarInfo).

(** The body of the loop over the predicted structures (lines 147-188). *)
Definition process_prediction (structure_key : string)
    (lddt_dict : gmap string (gmap string pyfloat))
    (true_prim_atoms : list PrimitiveAtom) (anchors : list (nat * nat))
    (pred_idx : nat) (structure : Structure) : run unit :=
  let pred_pra_templates := assign_primitive_structure structure in
  let pred_prim_atoms := map prat_to_pra pred_pra_templates in
  let lchd_scores := from_primitives true_prim_atoms pred_prim_atoms anchors true 10 in
  let key1 := key1 structure_key pred_idx in
  lddt_scores ← lift (collect_lddt_scores lddt_dict key1 true_prim_atoms anchors);
  current_spr ← lift (spearmanr rank_correlation lchd_scores lddt_scores);
  modify (λ st, State (spr_values st ++ [current_spr])
                      (median_lddts st ++ [np_median lddt_scores])
                      (median_lchds st ++ [np_median lchd_scores])
                      (hist st) (output st)) ;;
  create_plot key1 lchd_scores lddt_scores current_spr ;;
  new_hist ← lift (histogram2d lchd_scores lddt_scores hist_bins hist_range);
  modify (λ st, State (spr_values st) (median_lddts st) (median_lchds st)
                      (hist_add (hist st) new_hist) (output st)) ;;
  st ← get;
  emit (SaveHistogram (hist st)) ;;
  emit (PrintDone key1).

(** The body of the loop over the structures (lines 130-188). *)
Definition process_structure (entry : string * list Structure) : run unit :=
  let '(structure_key, structure_list) := entry in
  if bool_decide (is_Some (lddt_tars !! structure_key)) then
    lddt_dict ← lift (read_lddt_values float lddt_tars structure_key);
    true_structure ← lift (getitem structure_list 0);
    let true_pra_templates := assign_primitive_structure true_structure in
    let anchors := anchors_of true_pra_templates in
    let true_prim_atoms := map prat_to_pra true_pra_templates in
    for_each (λ p, process_prediction structure_key lddt_dict true_prim_atoms anchors p.1 p.2)
             (enumerate (drop 1 structure_list))
  else mret tt.

(** The report written to [statistics.txt] (lines 190-211). *)
Definition statistics_report (st : state) : result (list (string * pyfloat)) :=
  spr ← statistics_lines sqrt "SpR" (spr_values st);
  lddt ← statistics_lines sqrt "median lDDT" (median_lddts st);
  lchd ← statistics_lines sqrt "median LoCoHD" (median_lchds st);
  Ok (spr ++ lddt ++ lchd)%list.

Definition write_statistics : run unit :=
  st ← get;
  out_str ← lift (statistics_report st);
  emit (WriteStatistics out_str).

(** [main], on the unpickled dict of structures, given by its items in
    order: the first structure of each list is the true structure, the
    others are the predictions. *)
Definition main (structures : list (string * list Structure)) : run unit :=
  hist0 ← lift (histogram2d [] [] hist_bins hist_range);
  modify (λ st, State (spr_values st) (median_lddts st) (median_lchds st)
                      hist0 (output st)) ;;
  for_each process_structure structures ;;
  write_statistics.

(** The state before the first statement of [main]. *)
Definition initial_state : state := State [] [] [] [] [].

End Main.

(** ** Properties of rows, for the statements about [lddt_from_text] *)

(** The row [line] has six fields or more, its Score column is not the
    sentinel and reads as the float [v]; [k] is the key built from its
    columns 0, 2 and 1. *)
Definition row_scores (float : string → option pyfloat) (line : list string)
    (k : string) (v : pyfloat) : Prop :=
  length line ≠ 1 ∧
  ∃ chain resname resnum score,
    line !! 0 = Some chain ∧ line !! 1 = Some resname ∧ line !! 2 = Some resnum ∧
    line !! 5 = Some score ∧ score ≠ "-" ∧
    k = chain +:+ "/" +:+ resnum +:+ "-" +:+ resname ∧ float score = Some v.

(** The rows the comprehension passes over: no tab at all, or the
    sentinel in the Score column. *)
Definition row_skipped (line : list string) : Prop :=
  length line = 1 ∨ line !! 5 = Some "-".

(** No line of the text starts with the header. *)
Definition no_header (text : string) : Prop :=
  Forall (λ line, startswith line header_text = false) (split (ascii_of_nat 10) text).

(** ** Properties of samples, for the statements about the histogram *)

(** The position of a value on an axis, in bin widths from [lo]. *)
Definition scaled (lo hi : Q) (B : nat) (v : Q) : Q :=
  ((v - lo) / (hi - lo) * inject_Z (Z.of_nat B))%Q.

(** The bin index in the words of the specification:
    [clamp(floor((v - lo) / (hi - lo) * B), 0, B - 1)]. *)
Definition clamped_bin (lo hi : Q) (B : nat) (v : Q) : nat :=
  Z.to_nat (Z.min (Z.max (Qfloor (scaled lo hi B v)) 0) (Z.of_nat B - 1)).

(** The sample lies in the closed range of an axis. *)
Definition in_range (r : Q * Q) (x : pyfloat) : Prop :=
  match x with
  | NaN => False
  | Fin q => (r.1 <= q)%Q ∧ (q <= r.2)%Q
  end.

Global Instance in_range_dec r x : Decision (in_range r x).
Proof.
  destruct x as [|q]; simpl; [right; tauto|].
  destruct (Qlt_le_dec q r.1) as [H1|H1].
  { right. intros [H _]. by apply Qle_not_lt in H. }
  destruct (Qlt_le_dec r.2 q) as [H2|H2].
  { right. intros [_ H]. by apply Qle_not_lt in H. }
  by left.
Defined.

(** The bin of a sample along one axis, as the histogram has it: the
    clamped formula inside the closed range, no bin outside of it. *)
Definition tallied_bin (r : Q * Q) (B : nat) (x : pyfloat) : option nat :=
  match x with
  | NaN => None
  | Fin q => if decide (in_range r x) then Some (clamped_bin r.1 r.2 B q) else None
  end.

(** The samples of a batch that lie in the range on both axes. *)
Definition samples_in_range (range : (Q * Q) * (Q * Q)) (x y : list pyfloat)
  : list (pyfloat * pyfloat) :=
  filter (λ s, in_range range.1 s.1 ∧ in_range range.2 s.2) (zip x y).

(** All values of the array are one and the same finite value. *)
Definition zero_variance (a : list pyfloat) : Prop :=
  ∃ q, Forall (λ x, ∃ p, x = Fin p ∧ (p == q)%Q) a.

(** ** Values named in the statements about [main] *)

(** The scores the scorer returns for a prediction. *)
Definition lchd_scores_of (Structure : Type)
    (assign_primitive_structure : Structure → list PrimitiveAtomTemplate)
    (from_primitives :
       list PrimitiveAtom → list PrimitiveAtom → list (nat * nat) → bool → Q → list pyfloat)
    (true_prim_atoms : list PrimitiveAtom)
    (anchors : list (nat * nat)) (structure : Structure) : list pyfloat :=
  from_primitives true_prim_atoms
    (map prat_to_pra (assign_primitive_structure structure)) anchors true 10%Q.

(** The accumulators after the three appends of a prediction. *)
Definition appended (st : state) (spr : pyfloat) (lchd lddt : list pyfloat) : state :=
  State (spr_values st ++ [spr]) (median_lddts st ++ [np_median lddt])
        (median_lchds st ++ [np_median lchd]) (hist st) (output st).

Definition is_cent (prat : PrimitiveAtomTemplate) : Prop :=
  primitive_type prat = "Cent".

(** The state [st'] keeps everything [st] has accumulated: the three
    lists and the output are extended at the end, and no bin has lost
    counts. *)
Definition append_only (st st' : state) : Prop :=
  spr_values st `prefix_of` spr_values st' ∧
  median_lddts st `prefix_of` median_lddts st' ∧
  median_lchds st `prefix_of` median_lchds st' ∧
  (∀ i j, hist_at (hist st) i j ≤ hist_at (hist st') i j) ∧
  output st `prefix_of` output st'.

(** The shape of a [bins] × [bins] array. *)
Definition square (B : nat) (h : histogram) : Prop :=
  length h = B ∧ Forall (λ row, length row = B) h.

Definition is_statistics (ev : event) : Prop :=
  match ev with WriteStatistics _ => True | _ => False end.

(** The histogram of the newest [SaveHistogram] event, if any. *)
Definition last_saved (out : list event) : option histogram :=
  last (omap (λ ev, match ev with SaveHistogram h => Some h | _ => None end) out).

(** The state of [main] when the loop over the structures starts. *)
Definition loop_start : state := State [] [] [] (core_counts [] hist_bins) [].

(** Every progress line comes directly after an image of the histogram. *)
Definition saved_before_done (out : list event) : Prop :=
  ∀ i key, out !! i = Some (PrintDone key) →
    ∃ h, 0 < i ∧ out !! (i - 1) = Some (SaveHistogram h).

(** What holds of the output while the loops run: the histogram is saved
    before each progress line, the newest image shows the histogram in
    memory once a prediction is done, and no statistics are written. *)
Definition log_invariant (st : state) : Prop :=
  saved_before_done (output st) ∧
  ((∃ key, PrintDone key ∈ output st) → last_saved (output st) = Some (hist st)) ∧
  Forall (λ ev, ¬ is_statistics ev) (output st).

(** ** A fixture: stub collaborators and a small corpus *)

Module Fixture.

(** A structure is given directly by its primitive atoms. *)
Definition Structure : Type := list PrimitiveAtomTemplate.
Definition assign_primitive_structure (s : Structure) : list PrimitiveAtomTemplate := s.

(** The stub scorer: anchor number [k] of the list scores [(k + 1) / 10]. *)
Definition from_primitives (a b : list PrimitiveAtom) (anchors : list (nat * nat))
    (only_hetero_contacts : bool) (distance_cutoff : Q) : list pyfloat :=
  map (λ k : nat, Fin (Z.of_nat (k + 1) # 10)) (seq 0 (length anchors)).

Definition rank_correlation (a b : list Q) : Q := 1%Q.
Definition sqrt (q : Q) : Q := q.

Definition atom (type chain : string) (resnum : Z) (resname : string)
  : PrimitiveAtomTemplate :=
  {| primitive_type := type;
     atom_source := {| source_residue := ("T1024", 0%Z, chain, (" ", resnum, " "));
                       source_residue_name := resname |};
     coordinates := (0, 0, 0)%Q |}.

(** Two residues, the first with a second atom that is no anchor. *)
Definition protein : Structure :=
  [atom "Cent" "A" 1 "ALA"; atom "O" "A" 1 "ALA"; atom "Cent" "A" 2 "GLY"].

Definition row (chain resname resnum score : string) : string :=
  chain +:+ tab +:+ resname +:+ tab +:+ resnum +:+ tab +:+ "x" +:+ tab +:+
  "0.9" +:+ tab +:+ score +:+ newline.

Definition table (rows : string) : string :=
  "lDDT table" +:+ newline +:+ header_text +:+ newline +:+ rows.

Definition full_table : string :=
  table (row "A" "ALA" "1" "0.85" +:+ row "A" "GLY" "2" "0.40").

(** The residue A/2-GLY carries the sentinel: its key is not in the map. *)
Definition sentinel_table : string :=
  table (row "A" "ALA" "1" "0.85" +:+ row "A" "GLY" "2" "-").

(** Both residues have the same score. *)
Definition constant_table : string :=
  table (row "A" "ALA" "1" "0.85" +:+ row "A" "GLY" "2" "0.85").

(** The second row is cut after its third field. *)
Definition truncated_table : string :=
  table (row "A" "ALA" "1" "0.85" +:+
         "A" +:+ tab +:+ "GLY" +:+ tab +:+ "2" +:+ newline +:+
         row "A" "SER" "3" "0.40").

Definition headless_text : string :=
  row "A" "ALA" "1" "0.85" +:+ row "A" "GLY" "2" "0.40".

Definition full_scores : gmap string pyfloat :=
  <["A/2-GLY" := Fin (40 # 100)]> (<["A/1-ALA" := Fin (85 # 100)]> ∅).

Definition sentinel_scores : gmap string pyfloat :=
  <["A/1-ALA" := Fin (85 # 100)]> ∅.

Definition member (n : nat) (text : string) : TarInfo :=
  {| name := "T1024/lddt/T1024TS480_" +:+ pretty n +:+ ".lddt"; content := text |}.

Definition archive (members : list TarInfo) : gmap string (list TarInfo) :=
  <["T1024" := members]> ∅.

(** One true structure followed by [n] predictions. *)
Definition corpus (n : nat) : list (string * list Structure) :=
  [("T1024", protein :: replicate n protein)].

Definition tars_full : gmap string (list TarInfo) :=
  archive [member 1 full_table; member 2 full_table; member 3 full_table].

(** The table of the second prediction lacks the key A/2-GLY. *)
Definition tars_missing : gmap string (list TarInfo) :=
  archive [member 1 full_table; member 2 sentinel_table; member 3 full_table].

Definition lddt_dict_missing : gmap string (gmap string pyfloat) :=
  <["T1024TS480_3" := full_scores]>
    (<["T1024TS480_2" := sentinel_scores]> (<["T1024TS480_1" := full_scores]> ∅)).

(** The text of the second member has no header line. *)
Definition tars_headless : gmap string (list TarInfo) :=
  archive [member 1 full_table; member 2 headless_text; member 3 full_table].

(** The archive holds the member number 2 only. *)
Definition tars_second_only : gmap string (list TarInfo) :=
  archive [member 2 full_table].

(** The scores of the first prediction have zero variance. *)
Definition tars_constant : gmap string (list TarInfo) :=
  archive [member 1 constant_table; member 2 full_table].

Definition run_prediction :=
  process_prediction Structure assign_primitive_structure from_primitives
                     rank_correlation.

Definition run_structure (lddt_tars : gmap string (list TarInfo)) :=
  process_structure Structure assign_primitive_structure from_primitives
                    float_of_decimal rank_correlation lddt_tars.

Definition run_main (lddt_tars : gmap string (list TarInfo))
    (structures : list (string * list Structure)) : state * result unit :=
  main Structure assign_primitive_structure from_primitives float_of_decimal
       rank_correlation sqrt lddt_tars structures initial_state.

(** The output of a run, one word per event. *)
Definition summary (out : list event) : list string :=
  map (λ ev, match ev with
             | SavePlot key _ => "plot " +:+ key
             | SaveHistogram _ => "histogram"
             | PrintDone key => "done " +:+ key
             | WriteStatistics _ => "statistics"
             end) out.

(** The state after the first prediction of the corpus. *)
Definition after_first (lddt_dict : gmap string (gmap string pyfloat)) : state :=
  (run_prediction "T1024" lddt_dict (map prat_to_pra protein) (anchors_of protein)
                  0 protein loop_start).1.

End Fixture.

(** ** Notions used in the further properties *)

(** The character does not occur in the string. *)
Fixpoint lacks (c : ascii) (s : string) : Prop :=
  match s with
  | EmptyString => True
  | String a s' => a ≠ c ∧ lacks c s'
  end.

(** The member is read into the dict under the key [k] with the map
    [scores]: [k] is the third component of its path without ".lddt",
    [scores] the map of its text. *)
Definition member_entry (float : string → option pyfloat) (m : TarInfo)
    (k : string) (scores : gmap string pyfloat) : Prop :=
  ∃ part, split "/" (name m) !! 2 = Some part ∧ k = replace ".lddt" "" part ∧
          lddt_from_text float (content m) = Ok scores.

(** The members [read_lddt_values] selects. *)
Definition selected (structure_key : string) (m : TarInfo) : Prop :=
  contains (structure_key +:+ PREDICTOR_KEY +:+ "_") (name m) = true.

(** The keys of the progress lines among the events, in order. *)
Definition done_keys (out : list event) : list string :=
  omap (λ ev, match ev with PrintDone key => Some key | _ => None end) out.

(** The three accumulators have the same number of entries. *)
Definition aligned (st : state) : Prop :=
  length (median_lddts st) = length (spr_values st) ∧
  length (median_lchds st) = length (spr_values st).

(** The keys of the predictions of one structure: none without an
    archive, else one per structure of the list after the first. *)
Definition keys_of_entry {Structure : Type} (lddt_tars : gmap string (list TarInfo))
    (entry : string * list Structure) : list string :=
  if bool_decide (is_Some (lddt_tars !! entry.1))
  then key1 entry.1 <$> seq 0 (length entry.2 - 1)
  else [].

(** The keys of the predictions the loops of [main] come to, in order. *)
Definition prediction_keys {Structure : Type} (lddt_tars : gmap string (list TarInfo))
    (structures : list (string * list Structure)) : list string :=
  structures ≫= keys_of_entry lddt_tars.

(** The predictions of [keys] are done, and nothing else is begun. *)
Definition all_done (st : state) (keys : list string) : Prop :=
  aligned st ∧ done_keys (output st) = keys ∧ length (spr_values st) = length keys.

(** Some first predictions of [keys] are done; the accumulators hold
    them and at most the prediction begun after them. *)
Definition partly_done (st : state) (keys : list string) : Prop :=
  aligned st ∧ done_keys (output st) `prefix_of` keys ∧
  length (done_keys (output st)) ≤ length (spr_values st) ∧
  length (spr_values st) ≤ length (done_keys (output st)) + 1.

Definition progress (st : state) (r : result unit) (keys : list string) : Prop :=
  match r with
  | Ok _ => all_done st keys
  | Raise _ => partly_done st keys
  end.

(** * Theorems *)

(** ** Results and statements *)

Lemma bind_Ok {A B : Type} (r : result A) (k : A → result B) (b : B) :
  r ≫= k = Ok b ↔ ∃ a, r = Ok a ∧ k a = Ok b.
Proof.
  destruct r as [a|e]; simpl; split.
  - eauto.
  - by intros (a' & [= <-] & ?).
  - done.
  - by intros (? & ? & _).
Qed.

Lemma bind_Raise {A B : Type} (r : result A) (k : A → result B) (e : exn) :
  r ≫= k = Raise e ↔ r = Raise e ∨ ∃ a, r = Ok a ∧ k a = Raise e.
Proof.
  destruct r as [a|e']; simpl; split.
  - eauto.
  - by intros [?|(a' & [= <-] & ?)].
  - intros [= <-]. by left.
  - by intros [[= ->]|(? & ? & _)].
Qed.

Lemma getitem_Ok {A : Type} (l : list A) (i : nat) (a : A) :
  getitem l i = Ok a ↔ l !! i = Some a.
Proof.
  unfold getitem. destruct (l !! i); split; intros H; by simplify_eq.
Qed.

Lemma getitem_Raise {A : Type} (l : list A) (i : nat) (e : exn) :
  getitem l i = Raise e ↔ length l ≤ i ∧ e = IndexError.
Proof.
  unfold getitem. destruct (l !! i) eqn:E.
  - apply lookup_lt_Some in E. split; [done|]. lia.
  - apply lookup_ge_None in E. split; [by intros [= <-]|by intros [_ ->]].
Qed.

Lemma dict_get_Ok {V : Type} (d : gmap string V) (k : string) (v : V) :
  dict_get d k = Ok v ↔ d !! k = Some v.
Proof.
  unfold dict_get. destruct (d !! k); split; intros H; by simplify_eq.
Qed.

Lemma dict_get_Raise {V : Type} (d : gmap string V) (k : string) (e : exn) :
  dict_get d k = Raise e ↔ d !! k = None ∧ e = KeyError k.
Proof.
  unfold dict_get. destruct (d !! k).
  - split; [done|by intros [? _]].
  - split; [by intros [= <-]|by intros [_ ->]].
Qed.

(** ** The score extractor *)

(** The last element with a property splits a list in one way only. *)
Lemma last_occurrence_unique {A : Type} (P : A → Prop) (pre pre' post post' : list A)
    (x x' : A) :
  pre ++ x :: post = pre' ++ x' :: post' →
  P x → P x' → (∀ y, y ∈ post → ¬ P y) → (∀ y, y ∈ post' → ¬ P y) →
  pre' = pre ∧ x' = x ∧ post' = post.
Proof.
  intros Heq Hx Hx' Hpost Hpost'. revert pre' Heq.
  induction pre as [|a pre IH]; intros [|b pre'] Heq; simpl in Heq.
  - by simplify_eq.
  - injection Heq as -> ->.
    destruct (Hpost x'); [|done]. apply elem_of_app; right; apply list_elem_of_here.
  - injection Heq as <- <-.
    destruct (Hpost' x); [|done]. apply elem_of_app; right; apply list_elem_of_here.
  - injection Heq as -> Heq. by destruct (IH pre' Heq) as (-> & -> & ->).
Qed.

Section ScoreExtractorFacts.

Variable float : string → option pyfloat.

Lemma row_scores_skipped line k v :
  row_scores float line k v → ¬ row_skipped line.
Proof.
  intros (Hlen & c & rn & n & sc & _ & _ & _ & Hsc & Hne & _) [Hone|Hsent];
    [done|congruence].
Qed.

Lemma row_scores_fun line k v k' v' :
  row_scores float line k v → row_scores float line k' v' → k = k' ∧ v = v'.
Proof.
  intros (_ & c & rn & n & sc & H0 & H1 & H2 & H5 & _ & -> & Hv)
         (_ & c' & rn' & n' & sc' & H0' & H1' & H2' & H5' & _ & -> & Hv').
  simplify_eq. done.
Qed.

(** One step of the comprehension on a row that is passed over. *)
Lemma comprehension_skipped line rest acc :
  row_skipped line →
  comprehension float (line :: rest) acc = comprehension float rest acc.
Proof.
  intros [Hone|Hsent]; simpl.
  - by rewrite Hone.
  - destruct (length line =? 1); [done|].
    unfold getitem. rewrite Hsent. simpl. done.
Qed.

(** One step of the comprehension on a row that scores. *)
Lemma comprehension_scores line rest acc k v :
  row_scores float line k v →
  comprehension float (line :: rest) acc = comprehension float rest (<[k := v]> acc).
Proof.
  intros (Hlen & c & rn & n & sc & H0 & H1 & H2 & H5 & Hne & -> & Hv). simpl.
  apply Nat.eqb_neq in Hlen. rewrite Hlen.
  unfold getitem. rewrite H5. simpl.
  apply String.eqb_neq in Hne. rewrite Hne.
  rewrite H0, H2, H1. simpl. by rewrite Hv.
Qed.

(** A row of two to five fields stops the comprehension. *)
Lemma comprehension_short line rest acc :
  1 < length line < 6 →
  comprehension float (line :: rest) acc = Raise IndexError.
Proof.
  intros [Hlo Hhi]. simpl.
  destruct (length line =? 1) eqn:E; [apply Nat.eqb_eq in E; lia|].
  unfold getitem. rewrite (lookup_ge_None_2 line 5) by lia. done.
Qed.

(** What a row is when the comprehension gets past it. *)
Lemma comprehension_row_cases line rest acc m :
  comprehension float (line :: rest) acc = Ok m →
  row_skipped line ∨ ∃ k v, row_scores float line k v.
Proof.
  simpl. destruct (length line =? 1) eqn:Hlen.
  { apply Nat.eqb_eq in Hlen. left. by left. }
  apply Nat.eqb_neq in Hlen.
  intros (sc & H5%getitem_Ok & H)%bind_Ok.
  destruct (String.eqb sc "-") eqn:Hs.
  { apply String.eqb_eq in Hs as ->. left. by right. }
  apply String.eqb_neq in Hs.
  apply bind_Ok in H as (c & H0%getitem_Ok & H).
  apply bind_Ok in H as (n & H2%getitem_Ok & H).
  apply bind_Ok in H as (rn & H1%getitem_Ok & H).
  destruct (float sc) as [v|] eqn:Hv; [|done].
  right. exists (c +:+ "/" +:+ n +:+ "-" +:+ rn), v.
  split; [done|]. by exists c, rn, n, sc.
Qed.

Lemma comprehension_rows rows acc m :
  comprehension float rows acc = Ok m →
  Forall (λ line, row_skipped line ∨ ∃ k v, row_scores float line k v) rows.
Proof.
  revert acc. induction rows as [|line rest IH]; intros acc Hm; [constructor|].
  pose proof (comprehension_row_cases _ _ _ _ Hm) as Hcase.
  constructor; [done|].
  destruct Hcase as [Hskip|(k & v & Hsc)].
  - rewrite comprehension_skipped in Hm by done. eauto.
  - rewrite (comprehension_scores _ _ _ _ _ Hsc) in Hm. eauto.
Qed.

(** The binding of a key at the end: the score of the last row that
    carries the key, or the binding at the start when no row does. *)
Lemma comprehension_lookup rows acc m k :
  comprehension float rows acc = Ok m →
  (∃ pre line post v,
      rows = pre ++ line :: post ∧ row_scores float line k v ∧
      (∀ l' v', l' ∈ post → ¬ row_scores float l' k v') ∧ m !! k = Some v)
  ∨ ((∀ l' v', l' ∈ rows → ¬ row_scores float l' k v') ∧ m !! k = acc !! k).
Proof.
  revert acc. induction rows as [|line rest IH]; intros acc Hm.
  { simpl in Hm. injection Hm as <-. right. split; [|done].
    intros l' v' Hin. by apply elem_of_nil in Hin. }
  destruct (comprehension_row_cases _ _ _ _ Hm) as [Hskip|(k0 & v0 & Hsc)].
  - rewrite comprehension_skipped in Hm by done.
    destruct (IH _ Hm) as [(pre & l & post & v & -> & Hl & Hpost & Hk)|[Hno Hk]].
    + left. exists (line :: pre), l, post, v. done.
    + right. split; [|done].
      intros l' v' [->|Hin]%elem_of_cons; [|by eapply Hno].
      intros Hs. by eapply row_scores_skipped.
  - rewrite (comprehension_scores _ _ _ _ _ Hsc) in Hm.
    destruct (IH _ Hm) as [(pre & l & post & v & -> & Hl & Hpost & Hk)|[Hno Hk]].
    + left. exists (line :: pre), l, post, v. done.
    + destruct (decide (k0 = k)) as [->|Hne].
      * left. exists [], line, rest, v0.
        rewrite lookup_insert_eq in Hk. done.
      * right. rewrite lookup_insert_ne in Hk by done. split; [|done].
        intros l' v' [->|Hin]%elem_of_cons; [|by eapply Hno].
        intros Hs. destruct (row_scores_fun _ _ _ _ _ Hsc Hs). done.
Qed.

(** Rows of one field can be deleted from the table beforehand. *)
Lemma comprehension_filter rows acc :
  comprehension float rows acc =
  comprehension float (filter (λ line, length line ≠ 1) rows) acc.
Proof.
  revert acc. induction rows as [|line rest IH]; intros acc; [done|].
  destruct (decide (length line = 1)) as [Hone|Hne].
  - rewrite filter_cons_False by naive_solver.
    rewrite comprehension_skipped by by left. apply IH.
  - rewrite filter_cons_True by done. simpl.
    apply Nat.eqb_neq in Hne. rewrite Hne.
    destruct (getitem line 5) as [sc|]; simpl; [|done].
    destruct (String.eqb sc "-"); [apply IH|].
    destruct (getitem line 0); simpl; [|done].
    destruct (getitem line 2); simpl; [|done].
    destruct (getitem line 1); simpl; [|done].
    destruct (float sc); [apply IH|done].
Qed.

Lemma comprehension_fails_on_short rows acc line :
  line ∈ rows → 1 < length line < 6 →
  ∃ e, comprehension float rows acc = Raise e.
Proof.
  intros Hin Hlen. revert acc.
  induction rows as [|l rest IH]; intros acc; [by apply elem_of_nil in Hin|].
  apply elem_of_cons in Hin as [<-|Hin].
  { exists IndexError. by apply comprehension_short. }
  destruct (comprehension float (l :: rest) acc) as [m|e] eqn:Hm; [|by eexists].
  destruct (comprehension_row_cases _ _ _ _ Hm) as [Hskip|(k0 & v0 & Hsc)].
  - rewrite comprehension_skipped in Hm by done.
    destruct (IH Hin acc) as [e He]. congruence.
  - rewrite (comprehension_scores _ _ _ _ _ Hsc) in Hm.
    destruct (IH Hin (<[k0:=v0]> acc)) as [e He]. congruence.
Qed.

Lemma first_header_from_no_header idx text :
  Forall (λ line, startswith line header_text = false) text →
  first_header_from idx text = Raise StopIteration.
Proof.
  intros H. revert idx. induction H as [|line rest Hl _ IH]; intros idx; [done|].
  simpl. rewrite Hl. apply IH.
Qed.

Lemma lddt_from_text_no_header text :
  no_header text → lddt_from_text float text = Raise StopIteration.
Proof.
  intros H. unfold lddt_from_text, rows_of.
  by rewrite first_header_from_no_header.
Qed.

End ScoreExtractorFacts.

(** ** Bin numbers *)

Lemma length_filter_map {A B : Type} (f : A → B)
    (P : B → Prop) `{!∀ y, Decision (P y)} (Q : A → Prop) `{!∀ x, Decision (Q x)}
    (l : list A) :
  (∀ x, P (f x) ↔ Q x) →
  length (filter P (map f l)) = length (filter Q l).
Proof.
  intros HPQ. induction l as [|x l IH]; [done|]. simpl.
  rewrite !filter_cons. specialize (HPQ x).
  destruct (decide (P (f x))), (decide (Q x)); simpl; tauto || lia.
Qed.

Section Bins.

Variables (lo hi : Q) (B : nat).
Hypothesis lo_lt_hi : (lo < hi)%Q.
Hypothesis B_pos : 0 < B.

Local Abbreviation pos := (scaled lo hi B).
Local Abbreviation nth_edge := (edge lo hi B).

Local Lemma width_pos : (0 < hi - lo)%Q.
Proof. unfold Qminus. by rewrite <- Qlt_minus_iff. Qed.

Local Lemma B_posQ : (0 < inject_Z (Z.of_nat B))%Q.
Proof. change 0%Q with (inject_Z 0). rewrite <- Zlt_Qlt. lia. Qed.

Local Lemma width_ne : ¬ (hi - lo == 0)%Q.
Proof. intros H. pose proof width_pos as Hw. rewrite H in Hw. by apply Qlt_irrefl in Hw. Qed.

Local Lemma B_neQ : ¬ (inject_Z (Z.of_nat B) == 0)%Q.
Proof. intros H. pose proof B_posQ as Hw. rewrite H in Hw. by apply Qlt_irrefl in Hw. Qed.

(** An edge is at most [v] exactly when its number is at most the
    scaled value. *)
Lemma edge_le_scaled k v :
  (nth_edge k <= v)%Q ↔ (inject_Z (Z.of_nat k) <= pos v)%Q.
Proof.
  pose proof width_pos as Hw. pose proof B_posQ as Hb.
  pose proof width_ne as Hw0. pose proof B_neQ as Hb0.
  assert (Hr : (0 < (hi - lo) / inject_Z (Z.of_nat B))%Q).
  { apply Qlt_shift_div_l; [done|]. by rewrite Qmult_0_l. }
  set (r := ((hi - lo) / inject_Z (Z.of_nat B))%Q) in *.
  assert (E1 : (lo + inject_Z (Z.of_nat k) * r == nth_edge k)%Q)
    by (unfold edge, r; field; done).
  assert (E2 : (lo + pos v * r == v)%Q)
    by (unfold scaled, r; field; done).
  rewrite <- (Qmult_le_r (inject_Z (Z.of_nat k)) (pos v) r Hr).
  rewrite <- (Qplus_le_r (inject_Z (Z.of_nat k) * r) (pos v * r) lo).
  setoid_rewrite E1. setoid_rewrite E2. done.
Qed.

Lemma edge_le_floor k v :
  (nth_edge k <= v)%Q ↔ (Z.of_nat k ≤ Qfloor (pos v))%Z.
Proof.
  rewrite edge_le_scaled. split.
  - intros H. apply Qfloor_resp_le in H. by rewrite Qfloor_Z in H.
  - intros H. rewrite Zle_Qle in H. eapply Qle_trans; [exact H|apply Qfloor_le].
Qed.

Lemma count_below (t : Z) (n : nat) :
  length (filter (λ k : nat, (Z.of_nat k ≤ t)%Z) (seq 0 n)) =
  Z.to_nat (Z.min (Z.max (t + 1) 0) (Z.of_nat n)).
Proof.
  induction n as [|n IH]; [simpl; lia|].
  rewrite seq_S, filter_app, length_app, IH. simpl.
  rewrite filter_cons, filter_nil. case_decide; simpl; lia.
Qed.

Lemma searchsorted_right_bin_edges v :
  searchsorted_right (bin_edges lo hi B) v =
  Z.to_nat (Z.min (Z.max (Qfloor (pos v) + 1) 0) (Z.of_nat (S B))).
Proof.
  unfold searchsorted_right, bin_edges.
  rewrite <- count_below.
  apply length_filter_map. intros k.
  rewrite Qle_bool_iff. apply edge_le_floor.
Qed.

Lemma last_bin_edges : (List.last (bin_edges lo hi B) 0%Q == hi)%Q.
Proof.
  unfold bin_edges. rewrite seq_S, map_app. simpl. rewrite List.last_last.
  unfold edge. field. apply B_neQ.
Qed.

Lemma scaled_nonneg v : (lo <= v)%Q ↔ (0 ≤ Qfloor (pos v))%Z.
Proof.
  change 0%Z with (Z.of_nat 0). rewrite <- edge_le_floor.
  assert (E : (nth_edge 0 == lo)%Q) by (unfold edge; simpl; field; apply B_neQ).
  by setoid_rewrite E.
Qed.

Lemma scaled_top v : (hi <= v)%Q ↔ (Z.of_nat B ≤ Qfloor (pos v))%Z.
Proof.
  rewrite <- edge_le_floor.
  assert (E : (nth_edge B == hi)%Q) by (unfold edge; field; apply B_neQ).
  by setoid_rewrite E.
Qed.

(** A sample of the closed range gets the bin of the clamped formula,
    counted from 1. *)
Lemma bin_number_in_range v :
  in_range (lo, hi) (Fin v) →
  bin_number (bin_edges lo hi B) (Fin v) = S (clamped_bin lo hi B v).
Proof.
  intros [Hlo Hhi]. simpl in Hlo, Hhi. unfold bin_number, clamped_bin.
  rewrite searchsorted_right_bin_edges.
  apply scaled_nonneg in Hlo.
  destruct (Qeq_bool v (List.last (bin_edges lo hi B) 0%Q)) eqn:E.
  - apply Qeq_bool_iff in E. rewrite last_bin_edges in E.
    assert (Htop : (hi <= v)%Q) by (rewrite E; apply Qle_refl).
    apply scaled_top in Htop. lia.
  - assert (Hlt : (v < hi)%Q).
    { apply Qle_lt_or_eq in Hhi as [?|Heq]; [done|].
      assert (E' : Qeq_bool v (List.last (bin_edges lo hi B) 0%Q) = true)
        by (apply Qeq_bool_iff; by rewrite last_bin_edges).
      congruence. }
    assert (Htop : ¬ (Z.of_nat B ≤ Qfloor (pos v))%Z).
    { rewrite <- scaled_top. by apply Qlt_not_le. }
    lia.
Qed.

(** A sample off the closed range gets one of the two outlier bins. *)
Lemma bin_number_outlier x :
  ¬ in_range (lo, hi) x →
  bin_number (bin_edges lo hi B) x = 0 ∨
  bin_number (bin_edges lo hi B) x = S B.
Proof.
  destruct x as [|v]; intros Hout.
  { right. simpl. unfold bin_edges. by rewrite length_map, length_seq. }
  unfold bin_number. rewrite searchsorted_right_bin_edges.
  destruct (Qlt_le_dec v lo) as [Hlo|Hlo].
  { assert (H : ¬ (0 ≤ Qfloor (pos v))%Z).
    { rewrite <- scaled_nonneg. by apply Qlt_not_le. }
    left. destruct (Qeq_bool _ _); lia. }
  destruct (Qlt_le_dec hi v) as [Hhi|Hhi]; [|by destruct Hout].
  assert (E : Qeq_bool v (List.last (bin_edges lo hi B) 0%Q) = false).
  { destruct (Qeq_bool _ _) eqn:E; [|done].
    apply Qeq_bool_iff in E. rewrite last_bin_edges in E.
    rewrite E in Hhi. by apply Qlt_irrefl in Hhi. }
  rewrite E. right.
  assert (Htop : (hi <= v)%Q) by by apply Qlt_le_weak.
  apply scaled_top in Htop. lia.
Qed.

Lemma bin_number_core x :
  1 ≤ bin_number (bin_edges lo hi B) x ≤ B ↔ in_range (lo, hi) x.
Proof.
  split.
  - intros H. destruct (decide (in_range (lo, hi) x)) as [|Hout]; [done|].
    destruct (bin_number_outlier x Hout); lia.
  - destruct x as [|v]; [done|]. intros Hin.
    rewrite (bin_number_in_range v Hin). unfold clamped_bin. lia.
Qed.

Lemma scaled_edge k : (pos (nth_edge k) == inject_Z (Z.of_nat k))%Q.
Proof. unfold scaled, edge. field. split; [apply B_neQ|apply width_ne]. Qed.

(** The edge number [k] is the lower edge of bin [k]. *)
Lemma clamped_bin_edge k :
  k < B → clamped_bin lo hi B (nth_edge k) = k.
Proof.
  intros Hk. unfold clamped_bin. rewrite scaled_edge, Qfloor_Z. lia.
Qed.

Lemma edge_in_range k : k ≤ B → in_range (lo, hi) (Fin (nth_edge k)).
Proof.
  intros Hk. split; simpl.
  - apply scaled_nonneg. rewrite scaled_edge, Qfloor_Z. lia.
  - apply edge_le_floor.
    assert (Htop : (Z.of_nat B ≤ Qfloor (pos hi))%Z)
      by (apply scaled_top, Qle_refl).
    lia.
Qed.

Lemma clamped_bin_top : clamped_bin lo hi B hi = B - 1.
Proof.
  unfold clamped_bin.
  assert (E : (pos hi == inject_Z (Z.of_nat B))%Q).
  { unfold scaled. field. apply width_ne. }
  rewrite E, Qfloor_Z. lia.
Qed.

End Bins.

(** ** Counts of the histogram *)

Lemma sum_list_map {A : Type} (f : A → nat) (l : list A) :
  sum_list (map f l) = sum_list_with f l.
Proof. induction l as [|x l IH]; [done|]. simpl. by rewrite IH. Qed.

Lemma sum_list_with_ext {A : Type} (f g : A → nat) (l : list A) :
  (∀ x, x ∈ l → f x = g x) → sum_list_with f l = sum_list_with g l.
Proof.
  induction l as [|x l IH]; intros H; [done|]. simpl.
  rewrite (H x) by apply list_elem_of_here.
  rewrite IH; [done|]. intros y Hy. apply H. by apply list_elem_of_further.
Qed.

Lemma sum_list_with_plus {A : Type} (f g : A → nat) (l : list A) :
  sum_list_with (λ x, f x + g x) l = sum_list_with f l + sum_list_with g l.
Proof. induction l as [|x l IH]; [done|]. simpl. rewrite IH. lia. Qed.

Lemma sum_list_with_zero {A : Type} (l : list A) :
  sum_list_with (λ _, 0) l = 0.
Proof. by induction l. Qed.

(** Along one axis, exactly one index of the core matches a bin number
    between 1 and the number of bins. *)
Lemma sum_indicator (b c B : nat) :
  sum_list_with (λ j, if decide (b = j + 1) then c else 0) (seq 0 B) =
  if decide (1 ≤ b ≤ B) then c else 0.
Proof.
  induction B as [|B IH].
  { simpl. case_decide; [lia|done]. }
  rewrite seq_S, sum_list_with_app, IH. simpl.
  repeat case_decide; lia.
Qed.

Lemma hist_total_core_counts (Ncount : list (nat * nat)) (B : nat) :
  hist_total (core_counts Ncount B) =
  length (filter (λ p, (1 ≤ p.1 ≤ B) ∧ (1 ≤ p.2 ≤ B)) Ncount).
Proof.
  unfold hist_total, core_counts.
  change (sum_list <$> ?l) with (map sum_list l).
  rewrite map_map, sum_list_map.
  erewrite sum_list_with_ext; last (intros i _; apply sum_list_map).
  induction Ncount as [|[a b] N IH].
  { unfold count_bin. simpl.
    erewrite sum_list_with_ext; last (intros i _; apply sum_list_with_zero).
    apply sum_list_with_zero. }
  rewrite filter_cons.
  transitivity
    (sum_list_with (λ i, (if decide (1 ≤ b ≤ B)
                          then (if decide (a = i + 1) then 1 else 0) else 0) +
                         sum_list_with (λ j, count_bin N (i + 1) (j + 1)) (seq 0 B))
                   (seq 0 B)).
  - apply sum_list_with_ext. intros i _.
    rewrite <- (sum_indicator b (if decide (a = i + 1) then 1 else 0) B).
    rewrite <- sum_list_with_plus. apply sum_list_with_ext. intros j _.
    unfold count_bin. rewrite filter_cons.
    repeat case_decide; simplify_eq; simpl; done.
  - rewrite sum_list_with_plus, IH. simpl.
    destruct (decide (1 ≤ b ≤ B)) as [Hb|Hb].
    + rewrite sum_indicator. repeat case_decide; simpl; lia.
    + rewrite sum_list_with_zero. case_decide; simpl; lia.
Qed.

Lemma lookup_core_counts (Ncount : list (nat * nat)) (B i j : nat) :
  i < B → j < B →
  hist_at (core_counts Ncount B) i j = count_bin Ncount (i + 1) (j + 1).
Proof.
  intros Hi Hj. unfold hist_at, core_counts.
  change (map ?f ?l) with (f <$> l).
  rewrite list_lookup_fmap, lookup_seq_lt by done. simpl.
  rewrite list_lookup_fmap, lookup_seq_lt by done. done.
Qed.

Lemma square_core_counts Ncount B : square B (core_counts Ncount B).
Proof.
  split.
  - unfold core_counts. by rewrite length_map, length_seq.
  - apply Forall_forall. intros row. unfold core_counts.
    change (map ?f ?l) with (f <$> l).
    intros (i & -> & _)%list_elem_of_fmap. by rewrite length_fmap, length_seq.
Qed.

Lemma square_hist_add B h1 h2 :
  square B h1 → square B h2 → square B (hist_add h1 h2).
Proof.
  intros [L1 F1] [L2 F2]. split.
  - unfold hist_add. rewrite length_zip_with. lia.
  - apply Forall_forall. intros row Hrow.
    apply list_elem_of_lookup in Hrow as [i Hi].
    apply lookup_zip_with_Some in Hi as (r1 & r2 & -> & H1 & H2).
    rewrite length_zip_with.
    rewrite (Forall_lookup_1 _ _ _ _ F1 H1), (Forall_lookup_1 _ _ _ _ F2 H2). lia.
Qed.

Lemma hist_at_hist_add B h1 h2 i j :
  square B h1 → square B h2 →
  hist_at (hist_add h1 h2) i j = hist_at h1 i j + hist_at h2 i j.
Proof.
  intros [L1 F1] [L2 F2]. unfold hist_at, hist_add.
  rewrite lookup_zip_with.
  destruct (h1 !! i) as [r1|] eqn:E1; simpl.
  2: { apply lookup_ge_None in E1.
       rewrite (lookup_ge_None_2 h2 i) by lia. done. }
  destruct (h2 !! i) as [r2|] eqn:E2; simpl.
  2: { apply lookup_ge_None in E2. apply lookup_lt_Some in E1. lia. }
  pose proof (Forall_lookup_1 _ _ _ _ F1 E1) as Hr1.
  pose proof (Forall_lookup_1 _ _ _ _ F2 E2) as Hr2. simpl in Hr1, Hr2.
  rewrite lookup_zip_with.
  destruct (r1 !! j) as [c1|] eqn:C1; simpl.
  2: { apply lookup_ge_None in C1. rewrite (lookup_ge_None_2 r2 j) by lia. done. }
  destruct (r2 !! j) as [c2|] eqn:C2; simpl; [done|].
  apply lookup_ge_None in C2. apply lookup_lt_Some in C1. lia.
Qed.

Lemma sum_list_zip_with_add (r1 r2 : list nat) :
  length r1 = length r2 →
  sum_list (zip_with Nat.add r1 r2) = sum_list r1 + sum_list r2.
Proof.
  revert r2. induction r1 as [|a r1 IH]; intros [|b r2] Hl; simplify_eq/=; [done|].
  rewrite IH by done. lia.
Qed.

Lemma hist_total_hist_add B h1 h2 :
  square B h1 → square B h2 →
  hist_total (hist_add h1 h2) = hist_total h1 + hist_total h2.
Proof.
  intros [L1 F1] [L2 F2].
  assert (Hrows : Forall2 (λ r1 r2 : list nat, length r1 = length r2) h1 h2).
  { apply Forall2_same_length_lookup. split; [congruence|].
    intros i r1 r2 H1 H2.
    rewrite (Forall_lookup_1 _ _ _ _ F1 H1), (Forall_lookup_1 _ _ _ _ F2 H2). done. }
  clear L1 F1 L2 F2. unfold hist_total, hist_add.
  induction Hrows as [|r1 r2 h1 h2 Hr _ IH]; [done|]. simpl.
  rewrite sum_list_zip_with_add by done.
  unfold fmap in IH. rewrite IH. lia.
Qed.

Lemma histogram2d_Ok x y bins range h :
  histogram2d x y bins range = Ok h ↔
  length x = length y ∧
  h = core_counts (zip (map (bin_number (bin_edges range.1.1 range.1.2 bins)) x)
                       (map (bin_number (bin_edges range.2.1 range.2.2 bins)) y)) bins.
Proof.
  unfold histogram2d. destruct (length x =? length y) eqn:E.
  - apply Nat.eqb_eq in E. split; [by intros [= <-]|by intros [_ ->]].
  - apply Nat.eqb_neq in E. split; [done|by intros [? _]].
Qed.

Lemma histogram2d_Raise x y bins range e :
  histogram2d x y bins range = Raise e ↔ length x ≠ length y ∧ e = ValueError.
Proof.
  unfold histogram2d. destruct (length x =? length y) eqn:E.
  - apply Nat.eqb_eq in E. split; [done|by intros [? _]].
  - apply Nat.eqb_neq in E. split; [by intros [= <-]|by intros [_ ->]].
Qed.

(** The samples counted in the core are those of the closed range. *)
Lemma core_samples (rx ry : Q * Q) (B : nat) (x y : list pyfloat) :
  (rx.1 < rx.2)%Q → (ry.1 < ry.2)%Q → 0 < B →
  length (filter (λ p, (1 ≤ p.1 ≤ B) ∧ (1 ≤ p.2 ≤ B))
                 (zip (map (bin_number (bin_edges rx.1 rx.2 B)) x)
                      (map (bin_number (bin_edges ry.1 ry.2 B)) y))) =
  length (samples_in_range (rx, ry) x y).
Proof.
  intros Hx Hy HB. unfold samples_in_range. simpl.
  revert y. induction x as [|a x IH]; intros [|b y]; try done.
  simpl. rewrite !filter_cons. simpl.
  pose proof (bin_number_core rx.1 rx.2 B Hx HB a) as Ha.
  pose proof (bin_number_core ry.1 ry.2 B Hy HB b) as Hb.
  destruct rx as [lox hix], ry as [loy hiy]. simpl in *.
  repeat case_decide; simpl; rewrite ?IH; try done; exfalso; tauto.
Qed.

Lemma bin_number_tallied (r : Q * Q) (B : nat) (x : pyfloat) (i : nat) :
  (r.1 < r.2)%Q → 0 < B → i < B →
  bin_number (bin_edges r.1 r.2 B) x = i + 1 ↔ tallied_bin r B x = Some i.
Proof.
  intros Hr HB Hi. destruct r as [lo hi]. simpl in *.
  destruct (decide (in_range (lo, hi) x)) as [Hin|Hout].
  - destruct x as [|q]; [done|]. unfold tallied_bin.
    rewrite decide_True by done.
    rewrite (bin_number_in_range lo hi B Hr HB q Hin). simpl.
    split; [intros ?; f_equal; lia|intros [= ->]; lia].
  - assert (tallied_bin (lo, hi) B x = None) as ->.
    { destruct x as [|q]; [done|]. unfold tallied_bin. by rewrite decide_False. }
    destruct (bin_number_outlier lo hi B Hr HB x Hout) as [->| ->]; split; (lia || done).
Qed.

(** The count of a cell of the core, in terms of the samples. *)
Lemma count_bin_tallied (rx ry : Q * Q) (B : nat) (x y : list pyfloat) (i j : nat) :
  (rx.1 < rx.2)%Q → (ry.1 < ry.2)%Q → 0 < B → i < B → j < B →
  count_bin (zip (map (bin_number (bin_edges rx.1 rx.2 B)) x)
                 (map (bin_number (bin_edges ry.1 ry.2 B)) y)) (i + 1) (j + 1) =
  length (filter (λ s, tallied_bin rx B s.1 = Some i ∧ tallied_bin ry B s.2 = Some j)
                 (zip x y)).
Proof.
  intros Hx Hy HB Hi Hj. unfold count_bin.
  revert y. induction x as [|a x IH]; intros [|b y]; try done.
  simpl. rewrite !filter_cons. simpl.
  pose proof (bin_number_tallied rx B a i Hx HB Hi) as Ha.
  pose proof (bin_number_tallied ry B b j Hy HB Hj) as Hb.
  repeat case_decide; simpl; rewrite ?IH; try done; exfalso.
  - match goal with H : (_, _) = (_, _) |- _ => injection H as H1 H2 end.
    apply Ha in H1. apply Hb in H2. tauto.
  - match goal with H : _ ∧ _ |- _ => destruct H as [H1 H2] end.
    apply Ha in H1. apply Hb in H2. congruence.
Qed.

(** ** NaN in the reductions *)

Lemma finite_values_NaN (a : list pyfloat) : NaN ∈ a → finite_values a = None.
Proof.
  induction a as [|[|q] a IH]; intros Hin.
  - by apply elem_of_nil in Hin.
  - done.
  - apply elem_of_cons in Hin as [?|Hin]; [done|]. simpl. by rewrite IH.
Qed.

Lemma is_constant_zero_variance (a : list pyfloat) :
  zero_variance a → is_constant a = true.
Proof.
  intros [q Hq]. destruct a as [|x a]; [done|].
  unfold is_constant. apply forallb_forall.
  apply Forall_cons in Hq as Hx. destruct Hx as [(p & -> & Hp) _].
  intros y Hy. apply list_elem_of_In in Hy.
  rewrite Forall_forall in Hq. destruct (Hq y Hy) as (p' & -> & Hp').
  simpl. apply Qeq_bool_iff. rewrite Hp, Hp'. reflexivity.
Qed.

Lemma spearmanr_constant rank_correlation (a b : list pyfloat) :
  length a = length b → is_constant a = true ∨ is_constant b = true →
  spearmanr rank_correlation a b = Ok NaN.
Proof.
  intros Hlen Hconst. unfold spearmanr.
  apply Nat.eqb_eq in Hlen. rewrite Hlen. simpl.
  destruct (length a <=? 1); [done|].
  by destruct Hconst as [-> | ->]; rewrite ?orb_true_r.
Qed.

(** ** Statements and loops *)

Lemma run_bind_Ok {A B : Type} (m : run A) (k : A → run B) st st1 a :
  m st = (st1, Ok a) → (m ≫= k) st = k a st1.
Proof. intros H. unfold mbind, run_bind. by rewrite H. Qed.

Lemma run_bind_Raise {A B : Type} (m : run A) (k : A → run B) st st1 e :
  m st = (st1, Raise e) → (m ≫= k) st = (st1, Raise e).
Proof. intros H. unfold mbind, run_bind. by rewrite H. Qed.

Lemma for_each_cons_Ok {A : Type} (body : A → run unit) x rest st st1 :
  body x st = (st1, Ok tt) →
  for_each body (x :: rest) st = for_each body rest st1.
Proof. intros H. simpl. by rewrite (run_bind_Ok _ _ _ _ _ H). Qed.

(** An exception in the body ends the loop: the remaining items are not
    visited. *)
Lemma for_each_cons_Raise {A : Type} (body : A → run unit) x rest st st1 e :
  body x st = (st1, Raise e) →
  for_each body (x :: rest) st = (st1, Raise e).
Proof. intros H. simpl. by rewrite (run_bind_Raise _ _ _ _ _ H). Qed.

(** A property and a preorder of states kept by every run of the body are
    kept by the loop, however it ends. *)
Lemma for_each_preserves {A : Type} (P : state → Prop) (R : state → state → Prop)
    `{!Reflexive R} `{!Transitive R} (body : A → run unit) (xs : list A) :
  (∀ x st st1 r, x ∈ xs → P st → body x st = (st1, r) → P st1 ∧ R st st1) →
  ∀ st st1 r, P st → for_each body xs st = (st1, r) → P st1 ∧ R st st1.
Proof.
  induction xs as [|x rest IH]; intros Hbody st st1 r HP Hrun.
  { simpl in Hrun. injection Hrun as <- <-. done. }
  destruct (body x st) as [st2 [[]|e]] eqn:Hx.
  - rewrite (for_each_cons_Ok _ _ _ _ _ Hx) in Hrun.
    destruct (Hbody x st st2 (Ok tt)) as [HP2 HR2]; [apply list_elem_of_here|done..|].
    destruct (IH (λ y s s1 r1 Hy, Hbody y s s1 r1 (list_elem_of_further _ _ _ Hy))
                 st2 st1 r HP2 Hrun) as [HP1 HR1].
    split; [done|]. by etrans.
  - rewrite (for_each_cons_Raise _ _ _ _ _ _ Hx) in Hrun. injection Hrun as <- <-.
    eapply Hbody; [apply list_elem_of_here|done..].
Qed.

Lemma for_each_app {A : Type} (body : A → run unit) xs ys st :
  for_each body (xs ++ ys) st =
  match for_each body xs st with
  | (st1, Ok _) => for_each body ys st1
  | (st1, Raise e) => (st1, Raise e)
  end.
Proof.
  revert st. induction xs as [|x xs IH]; intros st; [done|].
  simpl. unfold mbind, run_bind. destruct (body x st) as [st1 [[]|e]]; [|done].
  apply IH.
Qed.

Lemma for_each_invariant {A : Type} (P : state → Prop) (body : A → run unit)
    (xs : list A) :
  (∀ x st st1 r, x ∈ xs → P st → body x st = (st1, r) → P st1) →
  ∀ st st1 r, P st → for_each body xs st = (st1, r) → P st1.
Proof.
  intros Hbody st st1 r HP Hrun.
  assert (Hrefl : Reflexive (λ _ _ : state, True)) by done.
  assert (Htrans : Transitive (λ _ _ : state, True)) by done.
  eapply proj1, (for_each_preserves P (λ _ _, True) body xs); [|exact HP|exact Hrun].
  intros x s s1 r1 Hx Hs Hb. split; [by eapply Hbody|done].
Qed.

(** The positions of [enumerate]. *)
Lemma enumerate_lookup {A : Type} (xs : list A) (i : nat) (p : nat * A) :
  enumerate xs !! i = Some p ↔ p.1 = i ∧ xs !! i = Some p.2.
Proof.
  unfold enumerate. destruct p as [j x]. simpl.
  rewrite lookup_zip_with_Some. split.
  - intros (j' & x' & [= -> ->] & Hj & Hx).
    apply lookup_seq in Hj as [-> _]. done.
  - intros [-> Hx]. exists i, x. split_and!; [done| |done].
    apply lookup_seq. split; [done|]. by eapply lookup_lt_Some.
Qed.

Lemma enumerate_app {A : Type} (xs ys : list A) :
  enumerate (xs ++ ys) = enumerate xs ++ zip (seq (length xs) (length ys)) ys.
Proof.
  unfold enumerate. rewrite length_app, seq_app.
  apply zip_with_app. by rewrite length_seq.
Qed.

(** ** The anchors *)

Section Anchors.

Lemma anchors_from_length (n : nat) (l : list PrimitiveAtomTemplate) :
  length (filter (λ p : nat * PrimitiveAtomTemplate, is_cent p.2)
                 (zip (seq n (length l)) l)) =
  length (filter is_cent l).
Proof.
  revert n. induction l as [|x l IH]; intros n; [done|]. simpl.
  rewrite !filter_cons. simpl. case_decide; simpl; by rewrite IH.
Qed.

Lemma anchors_from_bound (n : nat) (l : list PrimitiveAtomTemplate) :
  Forall (λ p : nat * PrimitiveAtomTemplate, n ≤ p.1)
         (filter (λ p : nat * PrimitiveAtomTemplate, is_cent p.2)
                 (zip (seq n (length l)) l)).
Proof.
  revert n. induction l as [|x l IH]; intros n; [constructor|]. simpl.
  assert (Hrest := IH (S n)).
  rewrite filter_cons. simpl. case_decide.
  - constructor; [simpl; lia|]. eapply Forall_impl; [exact Hrest|]. simpl. lia.
  - eapply Forall_impl; [exact Hrest|]. simpl. lia.
Qed.

Lemma anchors_from_sorted (n : nat) (l : list PrimitiveAtomTemplate) :
  StronglySorted lt
    (filter (λ p : nat * PrimitiveAtomTemplate, is_cent p.2)
            (zip (seq n (length l)) l)).*1.
Proof.
  revert n. induction l as [|x l IH]; intros n; [constructor|]. simpl.
  rewrite filter_cons. simpl. case_decide; [|apply IH].
  simpl. constructor; [apply IH|].
  apply Forall_fmap. eapply Forall_impl; [apply (anchors_from_bound (S n))|].
  simpl. lia.
Qed.

Lemma elem_of_anchors_of (templates : list PrimitiveAtomTemplate) (a : nat * nat) :
  a ∈ anchors_of templates ↔
  a.2 = a.1 ∧ ∃ prat, templates !! a.1 = Some prat ∧ is_cent prat.
Proof.
  unfold anchors_of. change (map ?f ?l) with (f <$> l).
  rewrite list_elem_of_fmap. split.
  - intros ([i prat] & -> & [Hc Hin]%list_elem_of_filter). simpl in *.
    split; [done|]. exists prat. split; [|done].
    apply list_elem_of_lookup in Hin as [k Hk].
    by apply enumerate_lookup in Hk as [<- Hk].
  - destruct a as [i j]. simpl. intros (-> & prat & Hi & Hc).
    exists (i, prat). split; [done|]. apply list_elem_of_filter. split; [done|].
    apply list_elem_of_lookup. exists i. by apply enumerate_lookup.
Qed.

End Anchors.

(** ** The archive reader *)

Lemma read_members_fails float (members : list TarInfo) acc m :
  m ∈ members → (∃ e, lddt_from_text float (content m) = Raise e) →
  ∃ e, read_members float members acc = Raise e.
Proof.
  intros Hin [e He]. revert acc.
  induction members as [|m' rest IH]; intros acc; [by apply elem_of_nil in Hin|].
  simpl. apply elem_of_cons in Hin as [<-|Hin].
  { rewrite He. by eexists. }
  destruct (lddt_from_text float (content m')) as [d|e']; simpl; [|by eexists].
  destruct (getitem _ 2) as [part|e']; simpl; [|by eexists].
  by apply IH.
Qed.

(** ** The effect of one prediction *)

Section MainFacts.

Context (Structure : Type)
  (assign_primitive_structure : Structure → list PrimitiveAtomTemplate)
  (from_primitives :
     list PrimitiveAtom → list PrimitiveAtom → list (nat * nat) → bool → Q → list pyfloat)
  (float : string → option pyfloat)
  (rank_correlation : list Q → list Q → Q)
  (sqrt : Q → Q)
  (lddt_tars : gmap string (list TarInfo)).

Local Abbreviation run_prediction :=
  (process_prediction Structure assign_primitive_structure from_primitives rank_correlation).
Local Abbreviation run_structure :=
  (process_structure Structure assign_primitive_structure from_primitives float
                     rank_correlation lddt_tars).
Local Abbreviation run_main :=
  (main Structure assign_primitive_structure from_primitives float rank_correlation
        sqrt lddt_tars).
Local Abbreviation lchd_scores_of :=
  (lchd_scores_of Structure assign_primitive_structure from_primitives).

(** The body of the prediction loop, outcome by outcome. *)
Lemma process_prediction_unfold structure_key lddt_dict atoms anchors pred_idx
    structure st :
  let lchd := lchd_scores_of atoms anchors structure in
  let key := key1 structure_key pred_idx in
  run_prediction structure_key lddt_dict atoms anchors pred_idx structure st =
  match collect_lddt_scores lddt_dict key atoms anchors with
  | Raise e => (st, Raise e)
  | Ok lddt =>
      match spearmanr rank_correlation lchd lddt with
      | Raise e => (st, Raise e)
      | Ok spr =>
          let st1 := appended st spr lchd lddt in
          match get_plot_alpha lchd lddt with
          | Raise e => (st1, Raise e)
          | Ok alpha =>
              let out1 := output st ++ [SavePlot key alpha] in
              match histogram2d lchd lddt hist_bins hist_range with
              | Raise e =>
                  (State (spr_values st1) (median_lddts st1) (median_lchds st1)
                         (hist st) out1, Raise e)
              | Ok new_hist =>
                  let h := hist_add (hist st) new_hist in
                  (State (spr_values st1) (median_lddts st1) (median_lchds st1) h
                         (output st ++
                          [SavePlot key alpha; SaveHistogram h; PrintDone key]),
                   Ok tt)
              end
          end
      end
  end.
Proof.
  intros lchd key.
  unfold process_prediction, create_plot, mbind, run_bind, lift, modify, emit, get.
  fold (lchd_scores_of atoms anchors structure). fold lchd. fold key.
  destruct (collect_lddt_scores lddt_dict key atoms anchors) as [lddt|e]; [|done].
  destruct (spearmanr rank_correlation lchd lddt) as [spr|e]; [|done].
  destruct (get_plot_alpha lchd lddt) as [alpha|e]; [|done].
  destruct (histogram2d lchd lddt hist_bins hist_range) as [new_hist|e]; [|done].
  simpl. unfold modify. simpl. by rewrite <- !app_assoc.
Qed.

(** *** The lDDT scores of a prediction *)

Lemma collect_lddt_scores_length lddt_dict key atoms anchors lddt :
  collect_lddt_scores lddt_dict key atoms anchors = Ok lddt →
  length lddt = length anchors.
Proof.
  revert lddt. induction anchors as [|[a a'] rest IH]; intros lddt H; simpl in H.
  { by injection H as <-. }
  apply bind_Ok in H as (pra & _ & H). apply bind_Ok in H as (scores & _ & H).
  apply bind_Ok in H as (v & _ & H). apply bind_Ok in H as (l & Hl & [= <-]).
  simpl. f_equal. by apply IH.
Qed.

(** The scores read depend on the dict through one member only. *)
Lemma collect_lddt_scores_member d d' key atoms anchors :
  d !! key = d' !! key →
  collect_lddt_scores d key atoms anchors = collect_lddt_scores d' key atoms anchors.
Proof.
  intros Hk. induction anchors as [|[a a'] rest IH]; [done|]. simpl.
  destruct (getitem atoms a) as [pra|e]; [simpl|done].
  rewrite IH. unfold dict_get. by rewrite Hk.
Qed.

(** A key that is missing stops the collection: no score list comes
    out, shorter or otherwise. *)
Lemma collect_lddt_scores_missing lddt_dict key atoms anchors scores :
  lddt_dict !! key = Some scores →
  Forall (λ a, a.1 < length atoms) anchors →
  (∃ a pra, a ∈ anchors ∧ atoms !! a.1 = Some pra ∧ scores !! id pra = None) →
  ∃ a pra, a ∈ anchors ∧ atoms !! a.1 = Some pra ∧ scores !! id pra = None ∧
    collect_lddt_scores lddt_dict key atoms anchors = Raise (KeyError (id pra)).
Proof.
  intros Hd Hvalid. induction Hvalid as [|[a a'] rest Ha _ IH].
  { intros (a & pra & Hin & _). by apply elem_of_nil in Hin. }
  intros (b & prb & Hin & Hb & Hmiss). simpl in Ha.
  apply lookup_lt_is_Some in Ha as [pra Hpra].
  destruct (scores !! id pra) as [v|] eqn:Hv.
  - apply elem_of_cons in Hin as [->|Hin]; [simpl in Hb; congruence|].
    destruct IH as (c & prc & Hc & Hprc & Hcmiss & Hraise); [by eauto|].
    exists c, prc. split_and!; [by apply list_elem_of_further|done..|].
    simpl. unfold getitem, dict_get. rewrite Hpra, Hd. simpl. rewrite Hv. simpl.
    unfold getitem, dict_get in Hraise. by rewrite Hraise.
  - exists (a, a'), pra. split_and!; [apply list_elem_of_here|done..|].
    simpl. unfold getitem, dict_get. rewrite Hpra, Hd. simpl. by rewrite Hv.
Qed.

(** *** What one prediction keeps *)

Global Instance append_only_refl : Reflexive append_only.
Proof. intros st. by split_and!. Qed.

Global Instance append_only_trans : Transitive append_only.
Proof.
  intros s1 s2 s3 (A1 & A2 & A3 & A4 & A5) (B1 & B2 & B3 & B4 & B5).
  split_and!; try by etrans.
  intros i j. etrans; [apply A4|apply B4].
Qed.

Lemma process_prediction_append_only structure_key lddt_dict atoms anchors
    pred_idx structure st st1 r :
  square hist_bins (hist st) →
  run_prediction structure_key lddt_dict atoms anchors pred_idx structure st = (st1, r) →
  square hist_bins (hist st1) ∧ append_only st st1.
Proof.
  intros Hsq. rewrite process_prediction_unfold. cbv zeta.
  destruct (collect_lddt_scores _ _ _ _) as [lddt|e]; [|by intros [= <- <-]].
  destruct (spearmanr _ _ _) as [spr|e]; [|by intros [= <- <-]].
  destruct (get_plot_alpha _ _) as [alpha|e].
  2: { intros [= <- <-]. split; [done|].
       split_and!; simpl; (by apply prefix_app_r) || done. }
  destruct (histogram2d _ _ _ _) as [new_hist|e] eqn:Hh.
  2: { intros [= <- <-]. split; [done|].
       split_and!; simpl; (by apply prefix_app_r) || done. }
  intros [= <- <-]. apply histogram2d_Ok in Hh as [_ ->]. simpl.
  pose proof (square_core_counts
    (zip (map (bin_number (bin_edges hist_range.1.1 hist_range.1.2 hist_bins))
              (lchd_scores_of atoms anchors structure))
         (map (bin_number (bin_edges hist_range.2.1 hist_range.2.2 hist_bins)) lddt))
    hist_bins) as Hnew.
  split; [by apply square_hist_add|].
  split_and!; simpl; try by apply prefix_app_r.
  intros i j. rewrite (hist_at_hist_add hist_bins) by done. lia.
Qed.

(** *** What one prediction writes *)

Lemma last_saved_app out chunk :
  last_saved (out ++ chunk) =
  match last_saved chunk with
  | Some h => Some h
  | None => last_saved out
  end.
Proof. unfold last_saved. by rewrite omap_app, last_app. Qed.

Lemma saved_before_done_snoc out ev :
  (∀ key, ev ≠ PrintDone key) →
  saved_before_done out → saved_before_done (out ++ [ev]).
Proof.
  intros Hev Hout i key [Hi|[Hlen Hi]]%lookup_app_Some.
  - destruct (Hout i key Hi) as (h & Hpos & Hprev).
    exists h. split; [done|]. by apply lookup_app_l_Some.
  - apply list_lookup_singleton_Some in Hi as [_ ->]. by destruct (Hev key).
Qed.

Lemma saved_before_done_chunk out key alpha h :
  saved_before_done out →
  saved_before_done (out ++ [SavePlot key alpha; SaveHistogram h; PrintDone key]).
Proof.
  intros Hout i k [Hi|[Hlen Hi]]%lookup_app_Some.
  - destruct (Hout i k Hi) as (h' & Hpos & Hprev).
    exists h'. split; [done|]. by apply lookup_app_l_Some.
  - destruct (i - length out) as [|[|[|n]]] eqn:E; simplify_eq/=.
    exists h. split; [lia|].
    rewrite lookup_app_r by lia.
    by replace (i - 1 - length out) with 1 by lia.
Qed.

Lemma process_prediction_log structure_key lddt_dict atoms anchors
    pred_idx structure st st1 r :
  log_invariant st →
  run_prediction structure_key lddt_dict atoms anchors pred_idx structure st = (st1, r) →
  log_invariant st1.
Proof.
  intros (Hsaved & Hlast & Hstat). rewrite process_prediction_unfold. cbv zeta.
  destruct (collect_lddt_scores _ _ _ _) as [lddt|e]; [|by intros [= <- <-]].
  destruct (spearmanr _ _ _) as [spr|e]; [|by intros [= <- <-]].
  destruct (get_plot_alpha _ _) as [alpha|e]; [|by intros [= <- <-]].
  destruct (histogram2d _ _ _ _) as [new_hist|e]; intros [= <- <-];
    unfold log_invariant; simpl.
  - split_and!.
    + by apply saved_before_done_chunk.
    + intros _. by rewrite last_saved_app.
    + apply Forall_app. split; [done|]. repeat constructor; by intros [].
  - split_and!.
    + by apply saved_before_done_snoc.
    + intros [key Hkey]. rewrite last_saved_app. simpl. apply Hlast.
      apply elem_of_app in Hkey as [?|Hkey]; [by eauto|].
      by apply list_elem_of_singleton in Hkey.
    + apply Forall_app. split; [done|]. repeat constructor; by intros [].
Qed.

(** *** The loop over the structures *)

Lemma process_structure_unfold structure_key structure_list st :
  run_structure (structure_key, structure_list) st =
  match lddt_tars !! structure_key with
  | None => (st, Ok tt)
  | Some _ =>
      match read_lddt_values float lddt_tars structure_key with
      | Raise e => (st, Raise e)
      | Ok lddt_dict =>
          match structure_list !! 0 with
          | None => (st, Raise IndexError)
          | Some true_structure =>
              let true_pra_templates := assign_primitive_structure true_structure in
              for_each (λ p, run_prediction structure_key lddt_dict
                               (map prat_to_pra true_pra_templates)
                               (anchors_of true_pra_templates) p.1 p.2)
                       (enumerate (drop 1 structure_list)) st
          end
      end
  end.
Proof.
  unfold process_structure.
  destruct (lddt_tars !! structure_key) as [members|] eqn:E.
  2: { rewrite bool_decide_eq_false_2; [done|]. by intros [? ?]. }
  rewrite bool_decide_eq_true_2 by eauto.
  unfold mbind, run_bind, lift, getitem.
  destruct (read_lddt_values _ _ _); [|done].
  by destruct (structure_list !! 0).
Qed.

Lemma process_structure_append_only entry st st1 r :
  square hist_bins (hist st) →
  run_structure entry st = (st1, r) →
  square hist_bins (hist st1) ∧ append_only st st1.
Proof.
  destruct entry as [structure_key structure_list].
  intros Hsq. rewrite process_structure_unfold.
  destruct (lddt_tars !! structure_key); [|by intros [= <- <-]].
  destruct (read_lddt_values _ _ _) as [lddt_dict|e]; [|by intros [= <- <-]].
  destruct (structure_list !! 0) as [true_structure|]; [|by intros [= <- <-]].
  cbv zeta. intros Hrun.
  eapply (for_each_preserves (λ s, square hist_bins (hist s)) append_only);
    [|exact Hsq|exact Hrun].
  intros p s s1 r1 _. apply process_prediction_append_only.
Qed.

Lemma structures_append_only structures st st1 r :
  square hist_bins (hist st) →
  for_each run_structure structures st = (st1, r) →
  square hist_bins (hist st1) ∧ append_only st st1.
Proof.
  intros Hsq Hrun.
  eapply (for_each_preserves (λ s, square hist_bins (hist s)) append_only);
    [|exact Hsq|exact Hrun].
  intros p s s1 r1 _. apply process_structure_append_only.
Qed.

Lemma structures_log structures st st1 r :
  log_invariant st →
  for_each run_structure structures st = (st1, r) →
  log_invariant st1.
Proof.
  intros Hinv Hrun.
  eapply (for_each_invariant log_invariant); [|exact Hinv|exact Hrun].
  intros [structure_key structure_list] s s1 r1 _ Hs.
  rewrite process_structure_unfold.
  destruct (lddt_tars !! structure_key); [|by intros [= <- <-]].
  destruct (read_lddt_values _ _ _) as [lddt_dict|e]; [|by intros [= <- <-]].
  destruct (structure_list !! 0) as [true_structure|]; [|by intros [= <- <-]].
  cbv zeta. intros Hloop.
  eapply (for_each_invariant log_invariant); [|exact Hs|exact Hloop].
  intros p s2 s3 r2 _ Hs2 Hp.
  eapply process_prediction_log; [exact Hs2|exact Hp].
Qed.

(** [main] is the loop over the structures from [loop_start], then the
    report; an exception of the loop is the outcome of [main]. *)
Lemma main_unfold structures :
  run_main structures initial_state =
  match for_each run_structure structures loop_start with
  | (st, Ok _) =>
      match statistics_report sqrt st with
      | Ok lines =>
          (State (spr_values st) (median_lddts st) (median_lchds st) (hist st)
                 (output st ++ [WriteStatistics lines]), Ok tt)
      | Raise e => (st, Raise e)
      end
  | (st, Raise e) => (st, Raise e)
  end.
Proof.
  unfold main, write_statistics, mbind at 1 2 3 4 5, run_bind, lift, modify, get, emit.
  simpl. fold loop_start.
  destruct (for_each _ _ _) as [st [[]|e]]; [|done].
  by destruct (statistics_report sqrt st).
Qed.

End MainFacts.

(** ** The run as a whole *)

Section RunFacts.

Context (Structure : Type)
  (assign_primitive_structure : Structure → list PrimitiveAtomTemplate)
  (from_primitives :
     list PrimitiveAtom → list PrimitiveAtom → list (nat * nat) → bool → Q → list pyfloat)
  (float : string → option pyfloat)
  (rank_correlation : list Q → list Q → Q)
  (sqrt : Q → Q)
  (lddt_tars : gmap string (list TarInfo)).

Local Abbreviation run_prediction :=
  (process_prediction Structure assign_primitive_structure from_primitives rank_correlation).
Local Abbreviation run_structure :=
  (process_structure Structure assign_primitive_structure from_primitives float
                     rank_correlation lddt_tars).
Local Abbreviation run_main :=
  (main Structure assign_primitive_structure from_primitives float rank_correlation
        sqrt lddt_tars).

Lemma log_invariant_loop_start : log_invariant loop_start.
Proof.
  split_and!; simpl.
  - intros i key Hi. by rewrite lookup_nil in Hi.
  - intros [key Hkey]. by apply elem_of_nil in Hkey.
  - constructor.
Qed.

(** An exception that ends the loop over the structures ends [main]:
    the state is left as it is and no statistics are written. *)
Lemma main_raises structures st e :
  for_each run_structure structures loop_start = (st, Raise e) →
  run_main structures initial_state = (st, Raise e) ∧
  Forall (λ ev, ¬ is_statistics ev) (output st).
Proof.
  intros Hloop. split.
  - by rewrite main_unfold, Hloop.
  - eapply (structures_log Structure assign_primitive_structure from_primitives float
              rank_correlation lddt_tars); [apply log_invariant_loop_start|exact Hloop].
Qed.

(** The run is over as soon as a structure raises. *)
Lemma structure_raises before entry rest st st1 e :
  for_each run_structure before loop_start = (st, Ok tt) →
  run_structure entry st = (st1, Raise e) →
  for_each run_structure (before ++ entry :: rest) loop_start = (st1, Raise e).
Proof.
  intros Hbefore Hentry. rewrite for_each_app, Hbefore.
  by apply for_each_cons_Raise.
Qed.

End RunFacts.

(** * The claims *)

Section Claims.

Context (Structure : Type)
  (assign_primitive_structure : Structure → list PrimitiveAtomTemplate)
  (from_primitives :
     list PrimitiveAtom → list PrimitiveAtom → list (nat * nat) → bool → Q → list pyfloat)
  (float : string → option pyfloat)
  (rank_correlation : list Q → list Q → Q)
  (sqrt : Q → Q)
  (lddt_tars : gmap string (list TarInfo)).

Local Abbreviation run_prediction :=
  (process_prediction Structure assign_primitive_structure from_primitives rank_correlation).
Local Abbreviation run_structure :=
  (process_structure Structure assign_primitive_structure from_primitives float
                     rank_correlation lddt_tars).
Local Abbreviation run_main :=
  (main Structure assign_primitive_structure from_primitives float rank_correlation
        sqrt lddt_tars).
Local Abbreviation lchd_scores_of :=
  (lchd_scores_of Structure assign_primitive_structure from_primitives).

(** C1, as amended. When the score map of a prediction lacks the key of
    an anchor, the lookup raises [KeyError] for an absent key: the anchor
    is not dropped. The exception is not caught anywhere: it ends the
    run at that prediction. The state is the one the earlier predictions
    left, so the accumulators hold those predictions only; the later
    predictions and structures are not processed and the statistics are
    not written. *)
Theorem missing_reference_score_ends_run
    (before rest : list (string * list Structure)) (structure_key : string)
    (true_structure : Structure) (preds_before preds_after : list Structure)
    (structure : Structure) (lddt_dict : gmap string (gmap string pyfloat))
    (scores : gmap string pyfloat) (st st1 : state) :
  let true_pra_templates := assign_primitive_structure true_structure in
  let true_prim_atoms := map prat_to_pra true_pra_templates in
  let anchors := anchors_of true_pra_templates in
  for_each run_structure before loop_start = (st, Ok tt) →
  read_lddt_values float lddt_tars structure_key = Ok lddt_dict →
  for_each (λ p, run_prediction structure_key lddt_dict true_prim_atoms anchors p.1 p.2)
           (enumerate preds_before) st = (st1, Ok tt) →
  lddt_dict !! key1 structure_key (length preds_before) = Some scores →
  (∃ a pra, a ∈ anchors ∧ true_prim_atoms !! a.1 = Some pra ∧ scores !! id pra = None) →
  ∃ k, scores !! k = None ∧
    run_main (before ++
              (structure_key, true_structure :: preds_before ++ structure :: preds_after)
              :: rest) initial_state
    = (st1, Raise (KeyError k)) ∧
    Forall (λ ev, ¬ is_statistics ev) (output st1).
Proof.
  intros templates atoms anchors Hbefore Hread Hpreds Hscores Hmissing.
  assert (Hvalid : Forall (λ a : nat * nat, a.1 < length atoms) anchors).
  { apply Forall_forall. intros a Ha.
    apply elem_of_anchors_of in Ha as (_ & prat & Hprat & _).
    unfold atoms. rewrite length_map. by eapply lookup_lt_Some. }
  destruct (collect_lddt_scores_missing lddt_dict _ atoms anchors scores
              Hscores Hvalid Hmissing) as (a & pra & _ & _ & Hnone & Hraise).
  exists (id pra). split; [done|].
  apply main_raises. apply structure_raises with (st := st); [done|].
  rewrite process_structure_unfold.
  assert (is_Some (lddt_tars !! structure_key)) as [members Hmembers].
  { unfold read_lddt_values in Hread. by destruct (lddt_tars !! structure_key). }
  rewrite Hmembers, Hread. simpl. rewrite drop_0.
  rewrite enumerate_app, for_each_app. fold templates atoms anchors.
  rewrite Hpreds. simpl. apply run_bind_Raise.
  rewrite process_prediction_unfold. cbv zeta. by rewrite Hraise.
Qed.


(** C6, as amended. [lddt_from_text] raises (StopIteration) on a text
    without a header line. The exception is not caught: when a selected
    member of a structure's archive has such a text, reading the archive
    raises and the run ends there, before any prediction of that
    structure is processed; the state is the one the earlier structures
    left and no statistics are written. *)
Theorem missing_header_ends_run
    (before rest : list (string * list Structure)) (structure_key : string)
    (structure_list : list Structure) (tf_members : list TarInfo) (m : TarInfo)
    (st : state) :
  for_each run_structure before loop_start = (st, Ok tt) →
  lddt_tars !! structure_key = Some tf_members →
  m ∈ tf_members →
  contains (structure_key +:+ PREDICTOR_KEY +:+ "_") (name m) = true →
  no_header (content m) →
  lddt_from_text float (content m) = Raise StopIteration ∧
  ∃ e, run_main (before ++ (structure_key, structure_list) :: rest) initial_state
       = (st, Raise e) ∧
       Forall (λ ev, ¬ is_statistics ev) (output st).
Proof.
  intros Hbefore Hmembers Hm Hsel Hno.
  pose proof (lddt_from_text_no_header float _ Hno) as Htext.
  split; [done|].
  destruct (read_members_fails float
              (filter (λ m, contains (structure_key +:+ PREDICTOR_KEY +:+ "_") (name m) = true)
                      tf_members) ∅ m) as [e He].
  { by apply list_elem_of_filter. }
  { by eexists. }
  exists e. apply main_raises. apply structure_raises with (st := st); [done|].
  rewrite process_structure_unfold, Hmembers.
  unfold read_lddt_values. by rewrite Hmembers, He.
Qed.



End Claims.



(** C4, as amended. [lddt_from_text] passes over the rows that split into
    a single field (lines without a tab, such as empty lines): the map is
    the one extracted from the table without these rows. A row of two to
    five fields is not passed over: it makes the whole extraction raise,
    whatever the other rows are. *)
Theorem single_field_rows_skipped_short_rows_raise
    (float : string → option pyfloat) (text : string) (rows : list (list string)) :
  rows_of text = Ok rows →
  lddt_from_text float text =
    comprehension float (filter (λ line, length line ≠ 1) rows) ∅ ∧
  ((∃ line, line ∈ rows ∧ 1 < length line < 6) →
   ∃ e, lddt_from_text float text = Raise e).
Proof.
  intros Hrows. unfold lddt_from_text. rewrite Hrows. simpl. split.
  - apply comprehension_filter.
  - intros (line & Hin & Hlen). by eapply comprehension_fails_on_short.
Qed.


(** C7. The anchor list of a point cloud has one entry per point of type
    "Cent": its length is the number of these points, the reference
    indices are strictly ascending, the prediction index of every pair is
    the reference index, every entry points at a "Cent" point whose
    primitive atom, at the same index, carries the key
    ["{chain}/{resnum}-{resname}"] of that point, and every "Cent" point
    has its entry. *)
Theorem anchors_of_reference_cloud (true_pra_templates : list PrimitiveAtomTemplate) :
  let anchors := anchors_of true_pra_templates in
  let true_prim_atoms := map prat_to_pra true_pra_templates in
  length anchors =
    length (filter (λ prat, primitive_type prat = "Cent") true_pra_templates) ∧
  StronglySorted lt anchors.*1 ∧
  Forall (λ a, a.2 = a.1) anchors ∧
  (∀ a, a ∈ anchors →
     ∃ prat pra, true_pra_templates !! a.1 = Some prat ∧ primitive_type prat = "Cent" ∧
       true_prim_atoms !! a.1 = Some pra ∧
       id pra = (source_residue (atom_source prat)).1.2 +:+ "/" +:+
                pretty (source_residue (atom_source prat)).2.1.2 +:+ "-" +:+
                source_residue_name (atom_source prat)) ∧
  (∀ i prat, true_pra_templates !! i = Some prat → primitive_type prat = "Cent" →
     (i, i) ∈ anchors).
Proof.
  intros anchors atoms. split_and!.
  - unfold anchors, anchors_of. rewrite length_map. apply anchors_from_length.
  - unfold anchors, anchors_of. change (map ?f ?l) with (f <$> l).
    rewrite <- list_fmap_compose.
    apply (anchors_from_sorted 0).
  - apply Forall_forall. intros a Ha. by apply elem_of_anchors_of in Ha as [? _].
  - intros a (_ & prat & Hprat & Hcent)%elem_of_anchors_of.
    exists prat, (prat_to_pra prat). split_and!; try done.
    unfold atoms. change (map ?f ?l) with (f <$> l).
    by rewrite list_lookup_fmap, Hprat.
  - intros i prat Hi Hcent. apply elem_of_anchors_of. simpl. eauto.
Qed.

(** * The claims on the fixture *)

(** C1, the claim as stated fails: of three predictions the second lacks
    a reference score. The run does not go on to the third prediction: it
    ends with the [KeyError], one prediction counted and not two, and no
    statistics written. *)
Lemma missing_score_run_counts_one :
  let r := Fixture.run_main Fixture.tars_missing (Fixture.corpus 3) in
  r.2 = Raise (KeyError "A/2-GLY") ∧
  length (spr_values r.1) = 1 ∧ length (spr_values r.1) ≠ 2 ∧
  Fixture.summary (output r.1) =
    ["plot T1024TS480_1"; "histogram"; "done T1024TS480_1"].
Proof. vm_compute. split_and!; (reflexivity || discriminate). Qed.

Lemma missing_reference_score_ends_run_witness :
  ∃ k, Fixture.sentinel_scores !! k = None ∧
    Fixture.run_main Fixture.tars_missing (Fixture.corpus 3)
    = (Fixture.after_first Fixture.lddt_dict_missing, Raise (KeyError k)) ∧
    Forall (λ ev, ¬ is_statistics ev)
           (output (Fixture.after_first Fixture.lddt_dict_missing)).
Proof.
  apply (missing_reference_score_ends_run
           Fixture.Structure Fixture.assign_primitive_structure Fixture.from_primitives
           float_of_decimal Fixture.rank_correlation Fixture.sqrt Fixture.tars_missing
           [] [] "T1024" Fixture.protein [Fixture.protein] [Fixture.protein]
           Fixture.protein Fixture.lddt_dict_missing Fixture.sentinel_scores
           loop_start (Fixture.after_first Fixture.lddt_dict_missing)).
  - reflexivity.
  - vm_compute. reflexivity.
  - vm_compute. reflexivity.
  - vm_compute. reflexivity.
  - exists (2, 2), (prat_to_pra (Fixture.atom "Cent" "A" 2 "GLY")).
    split_and!; [|vm_compute; reflexivity..].
    apply elem_of_anchors_of. split; [reflexivity|].
    exists (Fixture.atom "Cent" "A" 2 "GLY"). split; reflexivity.
Defined.





(** C4, the claim as stated fails: a table whose second row is cut after
    three fields is not extracted at all. The call raises [IndexError];
    the two complete rows are lost with it. *)
Lemma truncated_row_fails_extraction :
  lddt_from_text float_of_decimal Fixture.truncated_table = Raise IndexError ∧
  ∃ rows, rows_of Fixture.truncated_table = Ok rows ∧ rows !! 1 = Some ["A"; "GLY"; "2"].
Proof. split; [vm_compute; reflexivity|]. eexists. split; vm_compute; reflexivity. Qed.

Lemma single_field_rows_skipped_short_rows_raise_witness :
  lddt_from_text float_of_decimal Fixture.truncated_table =
    comprehension float_of_decimal
      [["A"; "ALA"; "1"; "x"; "0.9"; "0.85"]; ["A"; "GLY"; "2"];
       ["A"; "SER"; "3"; "x"; "0.9"; "0.40"]] ∅ ∧
  ∃ e, lddt_from_text float_of_decimal Fixture.truncated_table = Raise e.
Proof.
  destruct (single_field_rows_skipped_short_rows_raise float_of_decimal
              Fixture.truncated_table
              [["A"; "ALA"; "1"; "x"; "0.9"; "0.85"]; ["A"; "GLY"; "2"];
               ["A"; "SER"; "3"; "x"; "0.9"; "0.40"]; [""]])
    as [Hfilter Hraise].
  - vm_compute. reflexivity.
  - split; [exact Hfilter|]. apply Hraise.
    exists ["A"; "GLY"; "2"]. split; [|simpl; lia].
    apply list_elem_of_further, list_elem_of_here.
Defined.



(** C6, the claim as stated fails: the text of the second of three
    members has no header. The run ends with the exception before any
    prediction is processed: the first prediction, whose table is sound,
    is lost as well. *)
Lemma missing_header_skips_all_predictions :
  let r := Fixture.run_main Fixture.tars_headless (Fixture.corpus 3) in
  r.2 = Raise StopIteration ∧ spr_values r.1 = [] ∧ output r.1 = [].
Proof. vm_compute. split_and!; reflexivity. Qed.

Lemma missing_header_ends_run_witness :
  lddt_from_text float_of_decimal Fixture.headless_text = Raise StopIteration ∧
  ∃ e, Fixture.run_main Fixture.tars_headless (Fixture.corpus 3) = (loop_start, Raise e) ∧
       Forall (λ ev, ¬ is_statistics ev) (output loop_start).
Proof.
  apply (missing_header_ends_run
           Fixture.Structure Fixture.assign_primitive_structure Fixture.from_primitives
           float_of_decimal Fixture.rank_correlation Fixture.sqrt Fixture.tars_headless
           [] [] "T1024" (Fixture.protein :: replicate 3 Fixture.protein)
           [Fixture.member 1 Fixture.full_table; Fixture.member 2 Fixture.headless_text;
            Fixture.member 3 Fixture.full_table]
           (Fixture.member 2 Fixture.headless_text) loop_start).
  - reflexivity.
  - vm_compute. reflexivity.
  - apply list_elem_of_further, list_elem_of_here.
  - vm_compute. reflexivity.
  - unfold no_header. vm_compute. repeat constructor.
Defined.





(** * Further properties of the script *)

(** ** get_plot_alpha *)

Lemma Qmin_list_le (m : Q) (qs : list Q) : (Qmin_list m qs <= m)%Q.
Proof.
  revert m. induction qs as [|x qs IH]; intros m; [apply Qle_refl|].
  unfold Qmin_list in *. simpl.
  destruct (Qle_bool x m) eqn:E.
  - apply Qle_bool_iff in E. eapply Qle_trans; [apply IH|exact E].
  - apply IH.
Qed.

Lemma Qmax_list_ge (m : Q) (qs : list Q) : (m <= Qmax_list m qs)%Q.
Proof.
  revert m. induction qs as [|x qs IH]; intros m; [apply Qle_refl|].
  unfold Qmax_list in *. simpl.
  destruct (Qle_bool m x) eqn:E.
  - apply Qle_bool_iff in E. eapply Qle_trans; [exact E|apply IH].
  - apply IH.
Qed.

(** The extremes of a non-empty array: both NaN, or two finite values in
    order. *)
Lemma np_max_min_nonempty (a : list pyfloat) :
  a ≠ [] →
  (np_max a = Ok NaN ∧ np_min a = Ok NaN) ∨
  ∃ hi lo, np_max a = Ok (Fin hi) ∧ np_min a = Ok (Fin lo) ∧ (lo <= hi)%Q.
Proof.
  intros Ha. destruct a as [|x a]; [done|]. unfold np_max, np_min.
  destruct (finite_values (x :: a)) as [[|q qs]|]; [by left| |by left].
  right. exists (Qmax_list q qs), (Qmin_list q qs). split_and!; [done..|].
  eapply Qle_trans; [apply Qmin_list_le|apply Qmax_list_ge].
Qed.

Lemma np_max_Raise (a : list pyfloat) (e : exn) :
  np_max a = Raise e ↔ a = [] ∧ e = ValueError.
Proof.
  unfold np_max. destruct a as [|x a].
  - split; [by intros [= <-]|by intros [_ ->]].
  - split; [|by intros [? _]]. by destruct (finite_values (x :: a)) as [[|??]|].
Qed.

Lemma np_min_Raise (a : list pyfloat) (e : exn) :
  np_min a = Raise e ↔ a = [] ∧ e = ValueError.
Proof.
  unfold np_min. destruct a as [|x a].
  - split; [by intros [= <-]|by intros [_ ->]].
  - split; [|by intros [? _]]. by destruct (finite_values (x :: a)) as [[|??]|].
Qed.

(** X1. On two non-empty score lists [get_plot_alpha] returns a finite
    value between 0 and 1, whatever the scores are, NaN included: a
    transparency the scatter plot accepts. *)
Theorem get_plot_alpha_in_unit_interval (lchd_scores lddt_scores : list pyfloat) :
  lchd_scores ≠ [] → lddt_scores ≠ [] →
  ∃ alpha, get_plot_alpha lchd_scores lddt_scores = Ok (Fin alpha) ∧
           (0 <= alpha)%Q ∧ (alpha <= 1)%Q.
Proof.
  intros Hlchd Hlddt. unfold get_plot_alpha.
  assert (Hone : ∃ alpha, Ok (Fin 1) = Ok (Fin alpha) ∧ (0 <= alpha)%Q ∧ (alpha <= 1)%Q)
    by (exists 1%Q; done).
  destruct (np_max_min_nonempty lchd_scores Hlchd)
    as [[-> ->]|(hi1 & lo1 & -> & -> & H1)];
  destruct (np_max_min_nonempty lddt_scores Hlddt)
    as [[-> ->]|(hi2 & lo2 & -> & -> & H2)]; simpl; try exact Hone.
  set (area := (((hi1 - lo1) * (hi2 - lo2) /
                 inject_Z (Z.of_nat (length lddt_scores))) * 1000)%Q).
  destruct (Qle_bool 1 area) eqn:E; simpl; [exact Hone|].
  exists area. split_and!; [done| |].
  - assert (Hlen : (0 < inject_Z (Z.of_nat (length lddt_scores)))%Q).
    { change 0%Q with (inject_Z 0). rewrite <- Zlt_Qlt.
      destruct lddt_scores; [done|simpl; lia]. }
    unfold area. apply Qmult_le_0_compat; [|done].
    apply Qle_shift_div_l; [done|]. rewrite Qmult_0_l.
    apply Qmult_le_0_compat; unfold Qminus; by rewrite <- Qle_minus_iff.
  - apply Qlt_le_weak, Qnot_le_lt. intros Hle.
    apply Qle_bool_iff in Hle. congruence.
Qed.

(** X2. [get_plot_alpha] raises exactly when one of the two score lists is
    empty, and then a [ValueError]: the maximum of an empty array. *)
Theorem get_plot_alpha_raises_on_empty (lchd_scores lddt_scores : list pyfloat) (e : exn) :
  get_plot_alpha lchd_scores lddt_scores = Raise e ↔
  (lchd_scores = [] ∨ lddt_scores = []) ∧ e = ValueError.
Proof.
  split.
  - destruct (decide (lchd_scores = [])) as [->|Hlchd].
    { intros [= <-]. by split; [left|]. }
    destruct (decide (lddt_scores = [])) as [->|Hlddt].
    { unfold get_plot_alpha.
      destruct (np_max_min_nonempty lchd_scores Hlchd)
        as [[-> ->]|(hi1 & lo1 & -> & -> & _)]; simpl;
        intros [= <-]; by split; [right|]. }
    unfold get_plot_alpha.
    destruct (np_max_min_nonempty lchd_scores Hlchd)
      as [[-> ->]|(hi1 & lo1 & -> & -> & _)];
    destruct (np_max_min_nonempty lddt_scores Hlddt)
      as [[-> ->]|(hi2 & lo2 & -> & -> & _)]; done.
  - intros [[-> | ->] ->]; [done|].
    unfold get_plot_alpha.
    destruct (np_max lchd_scores) as [hi|e] eqn:Hmax; simpl.
    + destruct (np_min lchd_scores) as [lo|e] eqn:Hmin; simpl; [done|].
      apply np_min_Raise in Hmin as [-> ->]. done.
    + by apply np_max_Raise in Hmax as [_ ->].
Qed.

(** ** The residue key *)

Lemma string_app_cons (c : ascii) (s t : string) :
  String c s +:+ t = String c (s +:+ t).
Proof. reflexivity. Qed.

Lemma string_app_assoc (s t u : string) : (s +:+ t) +:+ u = s +:+ t +:+ u.
Proof.
  induction s as [|c s IH]; [done|]. rewrite !string_app_cons. by f_equal.
Qed.

Lemma string_app_nil_r (s : string) : s +:+ "" = s.
Proof.
  induction s as [|c s IH]; [done|]. rewrite string_app_cons. by f_equal.
Qed.

Lemma contains_char_lacks (c : ascii) (s : string) :
  contains (String c EmptyString) s = false → lacks c s.
Proof.
  induction s as [|a s IH]; [done|]. simpl.
  destruct (ascii_dec c a) as [->|Hne].
  - by destruct s.
  - intros H. split; [done|]. by apply IH.
Qed.

Lemma lacks_app (c : ascii) (s t : string) :
  lacks c s → lacks c t → lacks c (s +:+ t).
Proof.
  induction s as [|a s IH]; [done|]. rewrite string_app_cons. simpl.
  intros [? ?] ?. auto.
Qed.

(** Two strings cut at the first occurrence of a separator agree part by
    part. *)
Lemma split_at_first (sep : ascii) (a1 a2 r1 r2 : string) :
  lacks sep a1 → lacks sep a2 →
  a1 +:+ String sep r1 = a2 +:+ String sep r2 → a1 = a2 ∧ r1 = r2.
Proof.
  revert a2. induction a1 as [|c a1 IH]; intros [|d a2];
    rewrite ?string_app_cons; simpl.
  - by intros _ _ [= ->].
  - by intros _ [Hd _] [= <- _].
  - by intros [Hc _] _ [= -> _].
  - intros [_ H1] [_ H2] [= -> Heq]. by destruct (IH a2 H1 H2 Heq) as [-> ->].
Qed.

Lemma pretty_N_char_no_dash (x : N) : pretty_N_char x ≠ "-"%char.
Proof. unfold pretty_N_char. by repeat case_match. Qed.

(** The digits of a natural number come before the string they are added
    to; they hold no dash, and there is one at least for a positive
    number. *)
Lemma pretty_N_go_digits (x : N) (s : string) :
  ∃ d, pretty_N_go x s = d +:+ s ∧ lacks "-" d ∧ ((0 < x)%N → d ≠ "").
Proof.
  revert s. induction (N.lt_wf_0 x) as [x _ IH]. intros s.
  destruct (decide (0 < x)%N) as [Hpos|Hzero].
  - rewrite pretty_N_go_step by done.
    destruct (IH (x `div` 10)%N (N.div_lt x 10 Hpos eq_refl)
                 (String (pretty_N_char (x `mod` 10)) s)) as (d & -> & Hd & _).
    exists (d +:+ String (pretty_N_char (x `mod` 10)) "").
    split_and!.
    + by rewrite string_app_assoc.
    + apply lacks_app; [done|]. split; [apply pretty_N_char_no_dash|done].
    + intros _. by destruct d.
  - assert (x = 0%N) as -> by lia. exists "". by rewrite pretty_N_go_0.
Qed.

Lemma pretty_N_digits (x : N) :
  lacks "-" (pretty x) ∧ pretty x ≠ "".
Proof.
  unfold pretty, pretty_N. case_decide as Hx; [by repeat split|].
  destruct (pretty_N_go_digits x "") as (d & -> & Hd & Hne).
  rewrite string_app_nil_r. split; [done|]. apply Hne. lia.
Qed.

(** A printed integer: digits, after a dash for a negative number. *)
Lemma pretty_Z_shape (z : Z) :
  ∃ d, lacks "-" d ∧ d ≠ "" ∧ (pretty z = d ∨ pretty z = String "-" d).
Proof.
  destruct z as [|p|p]; unfold pretty, pretty_Z.
  - exists "0". split_and!; [by repeat split|done|by left].
  - exists (pretty (N.pos p)).
    destruct (pretty_N_digits (N.pos p)). split_and!; [done..|by left].
  - exists (pretty (N.pos p)).
    destruct (pretty_N_digits (N.pos p)). split_and!; [done..|by right].
Qed.

Lemma printed_number_inj (z1 z2 : Z) (r1 r2 : string) :
  pretty z1 +:+ String "-" r1 = pretty z2 +:+ String "-" r2 → z1 = z2 ∧ r1 = r2.
Proof.
  destruct (pretty_Z_shape z1) as (d1 & Hd1 & Hne1 & Hz1).
  destruct (pretty_Z_shape z2) as (d2 & Hd2 & Hne2 & Hz2).
  intros Heq.
  assert (pretty z1 = pretty z2 ∧ r1 = r2) as [Hz ->].
  { destruct Hz1 as [E1|E1], Hz2 as [E2|E2]; rewrite E1, E2 in *.
    - by apply (split_at_first "-").
    - destruct d1 as [|c d1]; [done|]. rewrite !string_app_cons in Heq.
      injection Heq as -> _. by destruct Hd1.
    - destruct d2 as [|c d2]; [done|]. rewrite !string_app_cons in Heq.
      injection Heq as <- _. by destruct Hd2.
    - rewrite !string_app_cons in Heq. injection Heq as Heq.
      by destruct (split_at_first "-" d1 d2 r1 r2 Hd1 Hd2 Heq) as [-> ->]. }
  split; [|done]. by apply (inj pretty).
Qed.

(** X3. The key of a primitive atom identifies the residue: two source
    residues whose chain identifiers hold no "/" get the same key only if
    they agree in chain, residue number and residue name. *)
Theorem prat_to_pra_id_inj (prat1 prat2 : PrimitiveAtomTemplate) :
  let resi_id1 := source_residue (atom_source prat1) in
  let resi_id2 := source_residue (atom_source prat2) in
  contains "/" resi_id1.1.2 = false →
  contains "/" resi_id2.1.2 = false →
  id (prat_to_pra prat1) = id (prat_to_pra prat2) →
  resi_id1.1.2 = resi_id2.1.2 ∧ resi_id1.2.1.2 = resi_id2.2.1.2 ∧
  source_residue_name (atom_source prat1) = source_residue_name (atom_source prat2).
Proof.
  intros resi_id1 resi_id2 H1%contains_char_lacks H2%contains_char_lacks Hid.
  unfold prat_to_pra in Hid. simpl in Hid. fold resi_id1 resi_id2 in Hid.
  apply (split_at_first "/" _ _ _ _ H1 H2) in Hid as [Hchain Hrest].
  apply printed_number_inj in Hrest as [Hnum Hname]. done.
Qed.

(** X4. Within one structure the predictions are looked up under member
    keys that differ from one prediction to the next. *)
Theorem key1_inj (structure_key : string) (pred_idx1 pred_idx2 : nat) :
  key1 structure_key pred_idx1 = key1 structure_key pred_idx2 →
  pred_idx1 = pred_idx2.
Proof.
  unfold key1. intros H.
  repeat apply (inj (String.append _)) in H.
  apply (inj pretty) in H. lia.
Qed.

(** ** lddt_from_text, continued *)

Lemma split_nonempty (sep : ascii) (s : string) : split sep s ≠ [].
Proof.
  destruct s as [|c s]; [done|]. simpl.
  destruct (Ascii.eqb c sep); [done|]. by destruct (split sep s).
Qed.

(** Splitting a text joined by the separator splits its two parts. *)
Lemma split_app (sep : ascii) (a b : string) :
  split sep (a +:+ String sep b) = split sep a ++ split sep b.
Proof.
  induction a as [|c a IH].
  - simpl. by rewrite Ascii.eqb_refl.
  - rewrite string_app_cons. simpl. rewrite IH.
    destruct (Ascii.eqb c sep); [done|].
    pose proof (split_nonempty sep a) as Hne.
    by destruct (split sep a).
Qed.

Lemma first_header_from_shift (k idx : nat) (text : list string) :
  first_header_from (k + idx) text =
  match first_header_from idx text with
  | Ok n => Ok (k + n)
  | Raise e => Raise e
  end.
Proof.
  revert idx. induction text as [|line rest IH]; intros idx; [done|]. simpl.
  destruct (startswith line header_text); [done|].
  rewrite <- IH. f_equal. lia.
Qed.

Lemma first_header_from_app (idx : nat) (junk text : list string) :
  Forall (λ line, startswith line header_text = false) junk →
  first_header_from idx (junk ++ text) = first_header_from (length junk + idx) text.
Proof.
  intros H. revert idx. induction H as [|line rest Hl _ IH]; intros idx; [done|].
  simpl. rewrite Hl, IH. f_equal. lia.
Qed.

(** X5. Whatever comes before the line of the header has no bearing on
    the map: lines that do not start with the header can be put in front
    of a text, or taken away, without changing the outcome. *)
Theorem lddt_from_text_ignores_preamble
    (float : string → option pyfloat) (junk text : string) :
  no_header junk →
  lddt_from_text float (junk +:+ newline +:+ text) = lddt_from_text float text.
Proof.
  intros Hjunk. unfold lddt_from_text, rows_of, newline.
  rewrite string_app_cons. change ("" +:+ text) with text.
  rewrite split_app, first_header_from_app by done.
  rewrite first_header_from_shift.
  destruct (first_header_from 0 (split (ascii_of_nat 10) text)) as [n|e]; [|done].
  simpl. do 2 f_equal.
  replace (length (split (ascii_of_nat 10) junk) + n + 1)
    with (length (split (ascii_of_nat 10) junk) + (n + 1)) by lia.
  by rewrite drop_app_add.
Qed.

(** The rows before the first faulty one leave the comprehension running. *)
Lemma comprehension_app_sound (float : string → option pyfloat)
    (pre rest : list (list string)) (acc : gmap string pyfloat) :
  Forall (λ line, row_skipped line ∨ ∃ k v, row_scores float line k v) pre →
  ∃ acc', comprehension float (pre ++ rest) acc = comprehension float rest acc'.
Proof.
  intros H. revert acc. induction H as [|line pre Hline _ IH]; intros acc.
  { by exists acc. }
  simpl app. destruct Hline as [Hskip|(k & v & Hsc)].
  - rewrite comprehension_skipped by done. apply IH.
  - rewrite (comprehension_scores _ _ _ _ _ _ Hsc). apply IH.
Qed.

(** X6. A Score column that is neither the sentinel nor a float makes the
    extraction raise [ValueError], when the rows before it are sound; the
    rows after it are not read. *)
Theorem unreadable_score_raises
    (float : string → option pyfloat) (text : string)
    (pre post : list (list string)) (line : list string) (score : string) :
  rows_of text = Ok (pre ++ line :: post) →
  Forall (λ line, row_skipped line ∨ ∃ k v, row_scores float line k v) pre →
  line !! 5 = Some score → score ≠ "-" → float score = None →
  lddt_from_text float text = Raise ValueError.
Proof.
  intros Hrows Hpre H5 Hsent Hfloat. unfold lddt_from_text. rewrite Hrows. simpl.
  destruct (comprehension_app_sound float pre (line :: post) ∅ Hpre) as [acc ->].
  simpl. assert (Hlen : 6 ≤ length line).
  { apply lookup_lt_Some in H5. lia. }
  destruct (length line =? 1) eqn:E; [apply Nat.eqb_eq in E; lia|].
  unfold getitem. rewrite H5. simpl.
  apply String.eqb_neq in Hsent. rewrite Hsent.
  destruct (lookup_lt_is_Some_2 line 0) as [c ->]; [lia|].
  destruct (lookup_lt_is_Some_2 line 2) as [n ->]; [lia|].
  destruct (lookup_lt_is_Some_2 line 1) as [r ->]; [lia|].
  simpl. by rewrite Hfloat.
Qed.

(** ** read_lddt_values, continued *)

Section ReaderFacts.

Variable float : string → option pyfloat.

Lemma read_members_cons_entry m rest acc k scores :
  member_entry float m k scores →
  read_members float (m :: rest) acc = read_members float rest (<[k := scores]> acc).
Proof.
  intros (part & Hpart & -> & Htext). simpl.
  rewrite Htext. simpl. unfold getitem. by rewrite Hpart.
Qed.

Lemma read_members_cons_Ok m rest acc d :
  read_members float (m :: rest) acc = Ok d →
  ∃ k scores, member_entry float m k scores.
Proof.
  simpl. intros (scores & Htext & H)%bind_Ok.
  apply bind_Ok in H as (part & Hpart%getitem_Ok & _).
  exists (replace ".lddt" "" part), scores. by exists part.
Qed.

Lemma read_members_keeps_keys members acc d k :
  read_members float members acc = Ok d → is_Some (acc !! k) → is_Some (d !! k).
Proof.
  revert acc. induction members as [|m rest IH]; intros acc Hd Hk.
  { by injection Hd as <-. }
  destruct (read_members_cons_Ok _ _ _ _ Hd) as (k' & scores & Hentry).
  rewrite (read_members_cons_entry _ _ _ _ _ Hentry) in Hd.
  apply (IH _ Hd). rewrite lookup_insert. case_decide; [by eexists|done].
Qed.

Lemma read_members_sound members acc d k scores :
  read_members float members acc = Ok d → d !! k = Some scores →
  (∃ m, m ∈ members ∧ member_entry float m k scores) ∨ acc !! k = Some scores.
Proof.
  revert acc. induction members as [|m rest IH]; intros acc Hd Hk.
  { injection Hd as <-. by right. }
  destruct (read_members_cons_Ok _ _ _ _ Hd) as (k' & scores' & Hentry).
  rewrite (read_members_cons_entry _ _ _ _ _ Hentry) in Hd.
  destruct (IH _ Hd Hk) as [(m' & Hin & Hm')|Hacc].
  - left. exists m'. split; [by apply list_elem_of_further|done].
  - rewrite lookup_insert in Hacc. case_decide as Heq; [|by right].
    left. exists m. split; [apply list_elem_of_here|]. by simplify_eq.
Qed.

Lemma read_members_complete members acc d m :
  read_members float members acc = Ok d → m ∈ members →
  ∃ k scores, member_entry float m k scores ∧ is_Some (d !! k).
Proof.
  revert acc. induction members as [|m' rest IH]; intros acc Hd Hin.
  { by apply elem_of_nil in Hin. }
  destruct (read_members_cons_Ok _ _ _ _ Hd) as (k' & scores' & Hentry).
  rewrite (read_members_cons_entry _ _ _ _ _ Hentry) in Hd.
  apply elem_of_cons in Hin as [->|Hin]; [|by eapply IH].
  exists k', scores'. split; [done|].
  eapply read_members_keeps_keys; [done|]. rewrite lookup_insert_eq. by eexists.
Qed.

Lemma read_members_app_sound pre rest acc :
  Forall (λ m, ∃ k scores, member_entry float m k scores) pre →
  ∃ acc', read_members float (pre ++ rest) acc = read_members float rest acc'.
Proof.
  intros H. revert acc. induction H as [|m pre (k & scores & Hm) _ IH]; intros acc.
  { by exists acc. }
  simpl app. rewrite (read_members_cons_entry _ _ _ _ _ Hm). apply IH.
Qed.

(** X7. The dict of a structure holds what the selected members give and
    nothing else: every entry is the map of the text of a selected member,
    under the third component of its path without ".lddt", and every
    selected member has its key in the dict. *)
Theorem read_lddt_values_entries
    (lddt_tars : gmap string (list TarInfo)) (structure_key : string)
    (lddt_dict : gmap string (gmap string pyfloat)) :
  read_lddt_values float lddt_tars structure_key = Ok lddt_dict →
  ∃ tf_members, lddt_tars !! structure_key = Some tf_members ∧
    (∀ k scores, lddt_dict !! k = Some scores →
       ∃ m, m ∈ tf_members ∧ selected structure_key m ∧ member_entry float m k scores) ∧
    (∀ m, m ∈ tf_members → selected structure_key m →
       ∃ k scores, member_entry float m k scores ∧ is_Some (lddt_dict !! k)).
Proof.
  unfold read_lddt_values.
  destruct (lddt_tars !! structure_key) as [tf_members|]; [|done].
  intros Hd. exists tf_members. split_and!; [done|..].
  - intros k scores Hk.
    destruct (read_members_sound _ _ _ _ _ Hd Hk) as [(m & Hin & Hm)|Hempty].
    + apply list_elem_of_filter in Hin as [Hsel Hin]. by exists m.
    + by rewrite lookup_empty in Hempty.
  - intros m Hin Hsel. eapply read_members_complete; [done|].
    by apply list_elem_of_filter.
Qed.

(** X8. A selected member whose path has fewer than three components
    makes the reader raise [IndexError], when its text and the members
    selected before it are sound. *)
Theorem shallow_member_path_raises
    (lddt_tars : gmap string (list TarInfo)) (structure_key : string)
    (tf_members pre post : list TarInfo) (m : TarInfo) (scores : gmap string pyfloat) :
  lddt_tars !! structure_key = Some tf_members →
  filter (λ m, contains (structure_key +:+ PREDICTOR_KEY +:+ "_") (name m) = true)
         tf_members = pre ++ m :: post →
  Forall (λ m, ∃ k scores, member_entry float m k scores) pre →
  lddt_from_text float (content m) = Ok scores →
  length (split "/" (name m)) < 3 →
  read_lddt_values float lddt_tars structure_key = Raise IndexError.
Proof.
  intros Hmembers Hsel Hpre Htext Hshort. unfold read_lddt_values.
  rewrite Hmembers.
  rewrite Hsel.
  destruct (read_members_app_sound pre (m :: post) ∅ Hpre) as [acc ->].
  simpl. rewrite Htext. simpl. unfold getitem.
  by rewrite lookup_ge_None_2 by lia.
Qed.

End ReaderFacts.

(** ** The loops of main, continued *)

Lemma all_done_partly st keys more : all_done st keys → partly_done st (keys ++ more).
Proof.
  intros (Hal & Hkeys & Hlen). split_and!; [done|..].
  - rewrite Hkeys. by apply prefix_app_r.
  - rewrite Hkeys. lia.
  - rewrite Hkeys. lia.
Qed.

Lemma partly_done_more st keys more : partly_done st keys → partly_done st (keys ++ more).
Proof.
  intros (Hal & Hkeys & Hlen). split_and!; [done| |apply Hlen..].
  etrans; [exact Hkeys|]. by apply prefix_app_r.
Qed.

(** A loop whose body does the predictions of [f x] does those of all
    its items, or a first part of them when it raises. *)
Lemma for_each_progress {A : Type} (f : A → list string) (body : A → run unit) :
  (∀ x st st1 r keys, all_done st keys → body x st = (st1, r) →
                      progress st1 r (keys ++ f x)) →
  ∀ xs st st1 r keys, all_done st keys → for_each body xs st = (st1, r) →
                      progress st1 r (keys ++ (xs ≫= f)).
Proof.
  intros Hbody. induction xs as [|x rest IH]; intros st st1 r keys Hst Hrun.
  { injection Hrun as <- <-. simpl. by rewrite app_nil_r. }
  change ((x :: rest) ≫= f) with (f x ++ (rest ≫= f)). rewrite app_assoc.
  destruct (body x st) as [st2 [[]|e]] eqn:Hx.
  - rewrite (for_each_cons_Ok _ _ _ _ _ Hx) in Hrun.
    apply (IH st2); [|done]. apply (Hbody x st st2 (Ok tt)); done.
  - rewrite (for_each_cons_Raise _ _ _ _ _ _ Hx) in Hrun. injection Hrun as <- <-.
    apply partly_done_more. apply (Hbody x st st2 (Raise e)); done.
Qed.

Lemma enumerate_keys {A : Type} (g : nat → string) (xs : list A) (n : nat) :
  zip (seq n (length xs)) xs ≫= (λ p, [g p.1]) = g <$> seq n (length xs).
Proof.
  revert n. induction xs as [|x xs IH]; intros n; [done|].
  simpl. f_equal. apply IH.
Qed.

Lemma statistics_report_empty sqrt st :
  spr_values st = [] → statistics_report sqrt st = Raise ValueError.
Proof. intros H. unfold statistics_report, statistics_lines. by rewrite H. Qed.

Lemma statistics_report_Ok sqrt st lines :
  statistics_report sqrt st = Ok lines → spr_values st ≠ [].
Proof. intros H Hnil. by rewrite (statistics_report_empty _ _ Hnil) in H. Qed.

Section RunFurther.

Context (Structure : Type)
  (assign_primitive_structure : Structure → list PrimitiveAtomTemplate)
  (from_primitives :
     list PrimitiveAtom → list PrimitiveAtom → list (nat * nat) → bool → Q → list pyfloat)
  (float : string → option pyfloat)
  (rank_correlation : list Q → list Q → Q)
  (sqrt : Q → Q)
  (lddt_tars : gmap string (list TarInfo)).

Local Abbreviation run_prediction :=
  (process_prediction Structure assign_primitive_structure from_primitives rank_correlation).
Local Abbreviation run_structure :=
  (process_structure Structure assign_primitive_structure from_primitives float
                     rank_correlation lddt_tars).
Local Abbreviation run_main :=
  (main Structure assign_primitive_structure from_primitives float rank_correlation
        sqrt lddt_tars).
Local Abbreviation lchd_scores_of :=
  (lchd_scores_of Structure assign_primitive_structure from_primitives).

Lemma process_prediction_progress structure_key lddt_dict atoms anchors pred_idx
    structure st st1 r keys :
  all_done st keys →
  run_prediction structure_key lddt_dict atoms anchors pred_idx structure st = (st1, r) →
  progress st1 r (keys ++ [key1 structure_key pred_idx]).
Proof.
  intros Hst. pose proof Hst as ([Hl Hc] & Hkeys & Hlen).
  rewrite process_prediction_unfold. cbv zeta.
  destruct (collect_lddt_scores _ _ _ _) as [lddt|e].
  2: { intros [= <- <-]. by apply all_done_partly. }
  destruct (spearmanr _ _ _) as [spr|e].
  2: { intros [= <- <-]. by apply all_done_partly. }
  destruct (get_plot_alpha _ _) as [alpha|e].
  2: { intros [= <- <-]. unfold progress, partly_done, aligned, appended. simpl.
       rewrite !length_app, Hkeys. simpl.
       split_and!; [lia..|by apply prefix_app_r|lia|lia]. }
  destruct (histogram2d _ _ _ _) as [new_hist|e].
  2: { intros [= <- <-]. unfold progress, partly_done, aligned, done_keys, appended. simpl.
       rewrite omap_app. simpl. rewrite app_nil_r. fold (done_keys (output st)).
       rewrite !length_app, Hkeys. simpl.
       split_and!; [lia..|by apply prefix_app_r|lia|lia]. }
  intros [= <- <-]. unfold progress, all_done, aligned, done_keys, appended. simpl.
  rewrite omap_app. simpl. fold (done_keys (output st)).
  rewrite !length_app, Hkeys. simpl. split_and!; (lia || done).
Qed.

Lemma process_structure_progress entry st st1 r keys :
  all_done st keys →
  run_structure entry st = (st1, r) →
  progress st1 r (keys ++ keys_of_entry lddt_tars entry).
Proof.
  destruct entry as [structure_key structure_list]. intros Hst.
  rewrite process_structure_unfold. unfold keys_of_entry. simpl.
  destruct (lddt_tars !! structure_key) as [members|] eqn:Hmembers.
  2: { rewrite bool_decide_eq_false_2 by (by intros [? ?]).
       intros [= <- <-]. simpl. by rewrite app_nil_r. }
  rewrite bool_decide_eq_true_2 by eauto.
  destruct (read_lddt_values _ _ _) as [lddt_dict|e].
  2: { intros [= <- <-]. by apply all_done_partly. }
  destruct (structure_list !! 0) as [true_structure|].
  2: { intros [= <- <-]. by apply all_done_partly. }
  cbv zeta. intros Hloop.
  replace (length structure_list - 1) with (length (drop 1 structure_list))
    by (rewrite length_drop; lia).
  rewrite <- (enumerate_keys (key1 structure_key) (drop 1 structure_list) 0).
  eapply (for_each_progress (λ p : nat * Structure, [key1 structure_key p.1]));
    [|exact Hst|exact Hloop].
  intros p s s1 r1 ks Hs Hp. eapply process_prediction_progress; [exact Hs|exact Hp].
Qed.

Lemma main_progress structures st r :
  run_main structures initial_state = (st, r) →
  square hist_bins (hist st) ∧
  progress st r (prediction_keys lddt_tars structures) ∧
  (r = Ok tt → spr_values st ≠ []).
Proof.
  rewrite main_unfold.
  destruct (for_each run_structure structures loop_start) as [st0 r0] eqn:Hloop.
  assert (Hstart : all_done loop_start []) by (by split_and!).
  pose proof (for_each_progress (keys_of_entry lddt_tars) run_structure
                process_structure_progress structures loop_start st0 r0 [] Hstart Hloop)
    as Hprogress.
  simpl in Hprogress. fold (prediction_keys lddt_tars structures) in Hprogress.
  apply (structures_append_only Structure assign_primitive_structure from_primitives float
           rank_correlation lddt_tars) in Hloop as [Hsq _];
    [|apply square_core_counts].
  destruct r0 as [[]|e]; [|by intros [= <- <-]].
  destruct (statistics_report sqrt st0) as [lines|e] eqn:Hreport; intros [= <- <-].
  - split_and!; [done| |].
    + destruct Hprogress as (Hal & Hkeys & Hlen).
      unfold progress, all_done, aligned, done_keys. simpl.
      rewrite omap_app. simpl. rewrite app_nil_r. split_and!; [apply Hal..|exact Hkeys|exact Hlen].
    + intros _. simpl. by eapply statistics_report_Ok.
  - split_and!; [done| |done].
    rewrite <- (app_nil_r (prediction_keys _ _)). by apply all_done_partly.
Qed.

(** X9. Whatever the corpus and however the run ends, the three
    accumulators have the same number of entries and the histogram is a
    100 × 100 array; the accumulators hold one entry per prediction
    reported done, and one more at most (the prediction begun when
    the run ended). A run that completes has done a prediction at
    least, and holds exactly one entry per prediction done. *)
Theorem accumulators_stay_aligned
    (structures : list (string * list Structure)) (st : state) (r : result unit) :
  run_main structures initial_state = (st, r) →
  aligned st ∧ square hist_bins (hist st) ∧
  length (done_keys (output st)) ≤ length (spr_values st) ∧
  length (spr_values st) ≤ length (done_keys (output st)) + 1 ∧
  (r = Ok tt → 0 < length (spr_values st) ∧
               length (spr_values st) = length (done_keys (output st))).
Proof.
  intros (Hsq & Hprogress & Hsome)%main_progress.
  destruct r as [[]|e].
  - destruct Hprogress as (Hal & Hkeys & Hlen). rewrite Hkeys.
    split_and!; [done|done|lia|lia|]. intros _.
    specialize (Hsome eq_refl). destruct (spr_values st); [done|]. simpl in *. lia.
  - destruct Hprogress as (Hal & Hkeys & Hlen1 & Hlen2).
    split_and!; done.
Qed.

(** X10. The progress lines of a run follow the corpus: in a run that
    completes they are, in order, the keys
    ["{structure_key}TS480_{i + 1}"] of the predictions of every structure
    that has an archive, one per structure of its list after the first,
    and there is one at least; in a run that raises they are a first
    part of these keys. *)
Theorem progress_follows_the_corpus
    (structures : list (string * list Structure)) (st : state) (r : result unit) :
  run_main structures initial_state = (st, r) →
  let keys := prediction_keys lddt_tars structures in
  match r with
  | Ok _ => done_keys (output st) = keys ∧ keys ≠ []
  | Raise _ => done_keys (output st) `prefix_of` keys
  end.
Proof.
  intros (Hsq & Hprogress & Hsome)%main_progress keys.
  destruct r as [[]|e].
  - destruct Hprogress as (Hal & Hkeys & Hlen). split; [done|].
    specialize (Hsome eq_refl). intros Hnil. fold keys in Hlen. rewrite Hnil in Hlen.
    by destruct (spr_values st).
  - by destruct Hprogress as (Hal & Hkeys & Hlen).
Qed.

Lemma for_each_skip structures st :
  for_each run_structure structures st =
  for_each run_structure (filter (λ entry, is_Some (lddt_tars !! entry.1)) structures) st.
Proof.
  revert st. induction structures as [|[structure_key structure_list] rest IH];
    intros st; [done|].
  rewrite filter_cons.
  destruct (run_structure (structure_key, structure_list) st) as [st1 [[]|e]] eqn:Hx.
  - rewrite (for_each_cons_Ok _ _ _ _ _ Hx). case_decide as Hsome.
    + by rewrite (for_each_cons_Ok _ _ _ _ _ Hx).
    + rewrite process_structure_unfold in Hx.
      destruct (lddt_tars !! structure_key) eqn:E; [by destruct Hsome; eauto|].
      injection Hx as <-. apply IH.
  - rewrite (for_each_cons_Raise _ _ _ _ _ _ Hx). case_decide as Hsome.
    + by rewrite (for_each_cons_Raise _ _ _ _ _ _ Hx).
    + rewrite process_structure_unfold in Hx.
      by destruct (lddt_tars !! structure_key) eqn:E; [destruct Hsome; eauto|].
Qed.

(** X11. A structure without an archive has no bearing on the run: the
    run over a corpus is the run over its structures that have an
    archive. *)
Theorem structures_without_archive_skipped
    (structures : list (string * list Structure)) (st : state) :
  run_main structures st =
  run_main (filter (λ entry, is_Some (lddt_tars !! entry.1)) structures) st.
Proof.
  unfold main, mbind, run_bind, lift, modify.
  destruct (histogram2d [] [] hist_bins hist_range); [|done].
  by rewrite for_each_skip.
Qed.

(** X12. When no structure of the corpus has an archive (an empty corpus
    included), the run does not complete: the minimum of the empty list of
    correlations raises [ValueError], after the loops have left the state
    as it was when they started; nothing is written. *)
Theorem run_without_archives_raises (structures : list (string * list Structure)) :
  Forall (λ entry, lddt_tars !! entry.1 = None) structures →
  run_main structures initial_state = (loop_start, Raise ValueError).
Proof.
  intros Hnone. rewrite main_unfold.
  assert (for_each run_structure structures loop_start = (loop_start, Ok tt)) as ->.
  { generalize loop_start. induction Hnone as [|[k l] rest Hk _ IH]; intros st; [done|].
    simpl in Hk. rewrite (for_each_cons_Ok _ _ _ _ st); [apply IH|].
    by rewrite process_structure_unfold, Hk. }
  by rewrite statistics_report_empty.
Qed.

(** X13. A prediction whose key is not in the dict of its structure
    raises [KeyError] with that key, when the true structure has an
    anchor: the state is left as it was. *)
Theorem missing_member_raises
    (structure_key : string) (lddt_dict : gmap string (gmap string pyfloat))
    (true_pra_templates : list PrimitiveAtomTemplate) (pred_idx : nat)
    (structure : Structure) (st : state) :
  Exists is_cent true_pra_templates →
  lddt_dict !! key1 structure_key pred_idx = None →
  run_prediction structure_key lddt_dict (map prat_to_pra true_pra_templates)
                 (anchors_of true_pra_templates) pred_idx structure st
  = (st, Raise (KeyError (key1 structure_key pred_idx))).
Proof.
  intros Hcent Hnone. rewrite process_prediction_unfold. cbv zeta.
  destruct (anchors_of true_pra_templates) as [|[a a'] rest] eqn:Hanchors.
  { apply Exists_exists in Hcent as (prat & Hin & Hprat).
    apply list_elem_of_lookup in Hin as [i Hi].
    assert ((i, i) ∈ anchors_of true_pra_templates) as Hmem.
    { apply elem_of_anchors_of. split; [done|]. by exists prat. }
    rewrite Hanchors in Hmem. by apply elem_of_nil in Hmem. }
  assert ((a, a') ∈ anchors_of true_pra_templates) as Hmem.
  { rewrite Hanchors. apply list_elem_of_here. }
  apply elem_of_anchors_of in Hmem as (_ & prat & Hprat & _). simpl in Hprat.
  simpl. unfold getitem, dict_get. rewrite list_lookup_fmap, Hprat. simpl.
  by rewrite Hnone.
Qed.

(** X14. When the scorer returns a list whose length is not the number
    of anchors, the rank correlation raises [ValueError]: the state is
    left as it was, nothing is appended or plotted. *)
Theorem scorer_length_mismatch_raises
    (structure_key : string) (lddt_dict : gmap string (gmap string pyfloat))
    (true_prim_atoms : list PrimitiveAtom) (anchors : list (nat * nat))
    (pred_idx : nat) (structure : Structure) (lddt_scores : list pyfloat) (st : state) :
  collect_lddt_scores lddt_dict (key1 structure_key pred_idx) true_prim_atoms anchors
    = Ok lddt_scores →
  length (lchd_scores_of true_prim_atoms anchors structure) ≠ length anchors →
  run_prediction structure_key lddt_dict true_prim_atoms anchors pred_idx structure st
  = (st, Raise ValueError).
Proof.
  intros Hlddt Hlen. rewrite process_prediction_unfold. cbv zeta. rewrite Hlddt.
  apply collect_lddt_scores_length in Hlddt. unfold spearmanr.
  rewrite <- Hlddt in Hlen. apply Nat.eqb_neq in Hlen. by rewrite Hlen.
Qed.

(** X15. A true structure without a "Cent" atom makes the first
    prediction of its structure raise [ValueError], whatever the scorer
    returns: a non-empty list of scores does not match the empty list of
    lDDT scores; with an empty list the correlation is NaN, NaN is
    appended to the three accumulators, and the plot fails on the
    maximum of an empty list. *)
Theorem structure_without_anchors_raises
    (structure_key : string) (true_structure structure : Structure)
    (rest : list Structure) (lddt_dict : gmap string (gmap string pyfloat)) (st : state) :
  let true_pra_templates := assign_primitive_structure true_structure in
  let lchd_scores := lchd_scores_of (map prat_to_pra true_pra_templates) [] structure in
  read_lddt_values float lddt_tars structure_key = Ok lddt_dict →
  Forall (λ prat, ¬ is_cent prat) true_pra_templates →
  run_structure (structure_key, true_structure :: structure :: rest) st =
  (match lchd_scores with [] => appended st NaN [] [] | _ => st end, Raise ValueError).
Proof.
  intros templates lchd Hread Hnone.
  assert (anchors_of templates = []) as Hanchors.
  { destruct (anchors_of templates) as [|a l] eqn:E; [done|].
    assert (a ∈ anchors_of templates) as Ha by (rewrite E; apply list_elem_of_here).
    apply elem_of_anchors_of in Ha as (_ & prat & Hprat & Hcent).
    rewrite Forall_forall in Hnone. destruct (Hnone prat); [|done].
    by eapply list_elem_of_lookup_2. }
  rewrite process_structure_unfold.
  assert (is_Some (lddt_tars !! structure_key)) as [members Hmembers].
  { unfold read_lddt_values in Hread. by destruct (lddt_tars !! structure_key). }
  rewrite Hmembers, Hread. simpl. fold templates. rewrite Hanchors.
  apply run_bind_Raise. rewrite process_prediction_unfold. cbv zeta. simpl.
  fold lchd. unfold spearmanr. destruct lchd as [|x l]; [|done].
  simpl. done.
Qed.

End RunFurther.

(** ** Scores without spread, and the scores of the anchors *)

Lemma Qmax_list_constant (q m : Q) (qs : list Q) :
  (m == q)%Q → Forall (λ x, (x == q)%Q) qs → (Qmax_list m qs == q)%Q.
Proof.
  intros Hm Hqs. revert m Hm. induction Hqs as [|x qs Hx _ IH]; intros m Hm; [done|].
  unfold Qmax_list in *. simpl. destruct (Qle_bool m x); by apply IH.
Qed.

Lemma Qmin_list_constant (q m : Q) (qs : list Q) :
  (m == q)%Q → Forall (λ x, (x == q)%Q) qs → (Qmin_list m qs == q)%Q.
Proof.
  intros Hm Hqs. revert m Hm. induction Hqs as [|x qs Hx _ IH]; intros m Hm; [done|].
  unfold Qmin_list in *. simpl. destruct (Qle_bool x m); by apply IH.
Qed.

Lemma zero_variance_finite (a : list pyfloat) (q : Q) :
  Forall (λ x, ∃ p, x = Fin p ∧ (p == q)%Q) a →
  ∃ qs, finite_values a = Some qs ∧ Forall (λ x, (x == q)%Q) qs.
Proof.
  induction 1 as [|x a (p & -> & Hp) _ (qs & Hqs & Hall)].
  - by exists [].
  - exists (p :: qs). simpl. rewrite Hqs. split; [done|]. by constructor.
Qed.

(** The extremes of a non-empty array of finite values. *)
Lemma np_extremes_finite (a : list pyfloat) :
  a ≠ [] → is_Some (finite_values a) →
  ∃ q qs, finite_values a = Some (q :: qs) ∧
          np_max a = Ok (Fin (Qmax_list q qs)) ∧ np_min a = Ok (Fin (Qmin_list q qs)).
Proof.
  intros Ha [qs Hqs]. destruct a as [|x a]; [done|].
  destruct qs as [|q qs].
  { simpl in Hqs. destruct x; [done|]. by destruct (finite_values a). }
  exists q, qs. unfold np_max, np_min. by rewrite Hqs.
Qed.

Lemma np_extremes_constant (a : list pyfloat) :
  a ≠ [] → zero_variance a →
  ∃ hi lo, np_max a = Ok (Fin hi) ∧ np_min a = Ok (Fin lo) ∧ (hi - lo == 0)%Q.
Proof.
  intros Ha [q Hq]. destruct (zero_variance_finite a q Hq) as (qs & Hqs & Hall).
  destruct (np_extremes_finite a Ha) as (q0 & qs0 & Hfin & -> & ->); [by eexists|].
  rewrite Hqs in Hfin. injection Hfin as ->.
  apply Forall_cons in Hall as [Hq0 Hall].
  exists (Qmax_list q0 qs0), (Qmin_list q0 qs0). split_and!; [done..|].
  setoid_rewrite (Qmax_list_constant q q0 qs0 Hq0 Hall).
  setoid_rewrite (Qmin_list_constant q q0 qs0 Hq0 Hall). ring.
Qed.


(** X17. The lDDT scores collected for a prediction follow the anchors:
    there is one score per anchor, and the score at position [i] is the
    one the score map of the prediction holds under the key of the atom
    of anchor [i]. The two score lists are joined by position. *)
Theorem lddt_scores_follow_anchors
    (lddt_dict : gmap string (gmap string pyfloat)) (key1 : string)
    (true_prim_atoms : list PrimitiveAtom) (anchors : list (nat * nat))
    (lddt_scores : list pyfloat) :
  collect_lddt_scores lddt_dict key1 true_prim_atoms anchors = Ok lddt_scores →
  length lddt_scores = length anchors ∧
  ∀ i anchor, anchors !! i = Some anchor →
    ∃ pra scores score,
      true_prim_atoms !! anchor.1 = Some pra ∧ lddt_dict !! key1 = Some scores ∧
      scores !! id pra = Some score ∧ lddt_scores !! i = Some score.
Proof.
  revert lddt_scores. induction anchors as [|[a a'] rest IH]; intros lddt H; simpl in H.
  { injection H as <-. split; [done|]. intros i anchor Hi. by rewrite lookup_nil in Hi. }
  apply bind_Ok in H as (pra & Hpra%getitem_Ok & H).
  apply bind_Ok in H as (scores & Hscores%dict_get_Ok & H).
  apply bind_Ok in H as (v & Hv%dict_get_Ok & H).
  apply bind_Ok in H as (l & Hl & [= <-]).
  destruct (IH l Hl) as [Hlen Hrest]. split; [simpl; by f_equal|].
  intros [|i] anchor Hi.
  - injection Hi as <-. by exists pra, scores, v.
  - by apply Hrest.
Qed.

(** ** The further properties on the fixture *)

Lemma get_plot_alpha_in_unit_interval_witness :
  ∃ alpha, get_plot_alpha [Fin (1 # 10); Fin (2 # 10)] [Fin (85 # 100); Fin (40 # 100)]
           = Ok (Fin alpha) ∧ (0 <= alpha)%Q ∧ (alpha <= 1)%Q.
Proof.
  apply (get_plot_alpha_in_unit_interval
           [Fin (1 # 10); Fin (2 # 10)] [Fin (85 # 100); Fin (40 # 100)]);
    discriminate.
Defined.

Lemma prat_to_pra_id_inj_witness :
  let prat1 := Fixture.atom "Cent" "A" 1 "ALA" in
  let prat2 := Fixture.atom "O" "A" 1 "ALA" in
  (source_residue (atom_source prat1)).1.2 = (source_residue (atom_source prat2)).1.2 ∧
  (source_residue (atom_source prat1)).2.1.2 = (source_residue (atom_source prat2)).2.1.2 ∧
  source_residue_name (atom_source prat1) = source_residue_name (atom_source prat2).
Proof.
  apply (prat_to_pra_id_inj (Fixture.atom "Cent" "A" 1 "ALA") (Fixture.atom "O" "A" 1 "ALA"));
    reflexivity.
Defined.

Lemma key1_inj_witness :
  key1 "T1024" 2 = key1 "T1024" (1 + 1) ∧ 2 = 1 + 1.
Proof.
  split; [reflexivity|]. apply (key1_inj "T1024" 2 (1 + 1)). reflexivity.
Defined.

Lemma lddt_from_text_ignores_preamble_witness :
  no_header "lDDT table" ∧
  lddt_from_text float_of_decimal
    ("lDDT table" +:+ newline +:+ header_text +:+ newline +:+
     Fixture.row "A" "ALA" "1" "0.85") =
  lddt_from_text float_of_decimal
    (header_text +:+ newline +:+ Fixture.row "A" "ALA" "1" "0.85").
Proof.
  assert (Hjunk : no_header "lDDT table").
  { unfold no_header. vm_compute. repeat constructor. }
  split; [exact Hjunk|].
  apply (lddt_from_text_ignores_preamble float_of_decimal "lDDT table"
           (header_text +:+ newline +:+ Fixture.row "A" "ALA" "1" "0.85") Hjunk).
Defined.

Lemma unreadable_score_raises_witness :
  lddt_from_text float_of_decimal
    (Fixture.table (Fixture.row "A" "ALA" "1" "-" +:+ Fixture.row "A" "GLY" "2" "n/a"))
  = Raise ValueError.
Proof.
  apply (unreadable_score_raises float_of_decimal
           (Fixture.table (Fixture.row "A" "ALA" "1" "-" +:+ Fixture.row "A" "GLY" "2" "n/a"))
           [["A"; "ALA"; "1"; "x"; "0.9"; "-"]] [[""]]
           ["A"; "GLY"; "2"; "x"; "0.9"; "n/a"] "n/a").
  - vm_compute. reflexivity.
  - constructor; [|constructor]. left. right. reflexivity.
  - reflexivity.
  - discriminate.
  - vm_compute. reflexivity.
Defined.

Lemma read_lddt_values_entries_witness :
  ∃ tf_members, Fixture.tars_missing !! "T1024" = Some tf_members ∧
    (∀ k scores, Fixture.lddt_dict_missing !! k = Some scores →
       ∃ m, m ∈ tf_members ∧ selected "T1024" m ∧
            member_entry float_of_decimal m k scores) ∧
    (∀ m, m ∈ tf_members → selected "T1024" m →
       ∃ k scores, member_entry float_of_decimal m k scores ∧
                   is_Some (Fixture.lddt_dict_missing !! k)).
Proof.
  apply (read_lddt_values_entries float_of_decimal Fixture.tars_missing "T1024"
           Fixture.lddt_dict_missing).
  vm_compute. reflexivity.
Defined.

Lemma shallow_member_path_raises_witness :
  let m := {| name := "T1024/T1024TS480_1.lddt"; content := Fixture.full_table |} in
  read_lddt_values float_of_decimal (Fixture.archive [m]) "T1024" = Raise IndexError.
Proof.
  apply (shallow_member_path_raises float_of_decimal
           (Fixture.archive
              [{| name := "T1024/T1024TS480_1.lddt"; content := Fixture.full_table |}])
           "T1024"
           [{| name := "T1024/T1024TS480_1.lddt"; content := Fixture.full_table |}]
           [] [] {| name := "T1024/T1024TS480_1.lddt"; content := Fixture.full_table |}
           Fixture.full_scores).
  - vm_compute. reflexivity.
  - vm_compute. reflexivity.
  - constructor.
  - vm_compute. reflexivity.
  - vm_compute. lia.
Defined.

Lemma accumulators_stay_aligned_witness :
  let st := (Fixture.run_main Fixture.tars_full (Fixture.corpus 2)).1 in
  aligned st ∧ square hist_bins (hist st) ∧
  length (done_keys (output st)) ≤ length (spr_values st) ∧
  length (spr_values st) ≤ length (done_keys (output st)) + 1 ∧
  (Ok tt = Ok tt → 0 < length (spr_values st) ∧
                   length (spr_values st) = length (done_keys (output st))).
Proof.
  apply (accumulators_stay_aligned
           Fixture.Structure Fixture.assign_primitive_structure Fixture.from_primitives
           float_of_decimal Fixture.rank_correlation Fixture.sqrt Fixture.tars_full
           (Fixture.corpus 2)
           (Fixture.run_main Fixture.tars_full (Fixture.corpus 2)).1 (Ok tt)).
  vm_compute. reflexivity.
Defined.

Lemma progress_follows_the_corpus_witness :
  let st := (Fixture.run_main Fixture.tars_full (Fixture.corpus 2)).1 in
  done_keys (output st) = prediction_keys Fixture.tars_full (Fixture.corpus 2) ∧
  prediction_keys Fixture.tars_full (Fixture.corpus 2) ≠ [].
Proof.
  apply (progress_follows_the_corpus
           Fixture.Structure Fixture.assign_primitive_structure Fixture.from_primitives
           float_of_decimal Fixture.rank_correlation Fixture.sqrt Fixture.tars_full
           (Fixture.corpus 2)
           (Fixture.run_main Fixture.tars_full (Fixture.corpus 2)).1 (Ok tt)).
  vm_compute. reflexivity.
Defined.

Lemma run_without_archives_raises_witness :
  main Fixture.Structure Fixture.assign_primitive_structure Fixture.from_primitives
       float_of_decimal Fixture.rank_correlation Fixture.sqrt ∅ (Fixture.corpus 2)
       initial_state
  = (loop_start, Raise ValueError).
Proof.
  apply (run_without_archives_raises
           Fixture.Structure Fixture.assign_primitive_structure Fixture.from_primitives
           float_of_decimal Fixture.rank_correlation Fixture.sqrt ∅ (Fixture.corpus 2)).
  repeat constructor.
Defined.

Lemma missing_member_raises_witness :
  Fixture.run_prediction "T1024" (<["T1024TS480_2" := Fixture.full_scores]> ∅)
    (map prat_to_pra Fixture.protein) (anchors_of Fixture.protein) 0 Fixture.protein
    loop_start
  = (loop_start, Raise (KeyError (key1 "T1024" 0))).
Proof.
  apply (missing_member_raises
           Fixture.Structure Fixture.assign_primitive_structure Fixture.from_primitives
           Fixture.rank_correlation "T1024" (<["T1024TS480_2" := Fixture.full_scores]> ∅)
           Fixture.protein 0 Fixture.protein loop_start).
  - apply Exists_cons_hd. reflexivity.
  - vm_compute. reflexivity.
Defined.

Lemma scorer_length_mismatch_raises_witness :
  process_prediction Fixture.Structure Fixture.assign_primitive_structure
    (λ _ _ _ _ _, [Fin (1 # 10)]) Fixture.rank_correlation
    "T1024" (<["T1024TS480_1" := Fixture.full_scores]> ∅)
    (map prat_to_pra Fixture.protein) (anchors_of Fixture.protein) 0 Fixture.protein
    loop_start
  = (loop_start, Raise ValueError).
Proof.
  apply (scorer_length_mismatch_raises
           Fixture.Structure Fixture.assign_primitive_structure
           (λ _ _ _ _ _, [Fin (1 # 10)]) Fixture.rank_correlation
           "T1024" (<["T1024TS480_1" := Fixture.full_scores]> ∅)
           (map prat_to_pra Fixture.protein) (anchors_of Fixture.protein) 0
           Fixture.protein [Fin (85 # 100); Fin (40 # 100)] loop_start).
  - vm_compute. reflexivity.
  - vm_compute. lia.
Defined.

Lemma structure_without_anchors_raises_witness :
  Fixture.run_structure Fixture.tars_missing
    ("T1024", [[Fixture.atom "O" "A" 1 "ALA"]; Fixture.protein]) loop_start
  = (appended loop_start NaN [] [], Raise ValueError).
Proof.
  apply (structure_without_anchors_raises
           Fixture.Structure Fixture.assign_primitive_structure Fixture.from_primitives
           float_of_decimal Fixture.rank_correlation Fixture.tars_missing
           "T1024" [Fixture.atom "O" "A" 1 "ALA"] Fixture.protein []
           Fixture.lddt_dict_missing loop_start).
  - vm_compute. reflexivity.
  - repeat constructor. discriminate.
Defined.


Lemma lddt_scores_follow_anchors_witness :
  let lddt_scores := [Fin (85 # 100); Fin (40 # 100)] in
  length lddt_scores = length (anchors_of Fixture.protein) ∧
  ∀ i anchor, anchors_of Fixture.protein !! i = Some anchor →
    ∃ pra scores score,
      map prat_to_pra Fixture.protein !! anchor.1 = Some pra ∧
      Fixture.lddt_dict_missing !! "T1024TS480_1" = Some scores ∧
      scores !! id pra = Some score ∧ lddt_scores !! i = Some score.
Proof.
  apply (lddt_scores_follow_anchors Fixture.lddt_dict_missing "T1024TS480_1"
           (map prat_to_pra Fixture.protein) (anchors_of Fixture.protein)
           [Fin (85 # 100); Fin (40 # 100)]).
  vm_compute. reflexivity.
Defined.
